(** * vsgGIS: gdal_utils.cpp

    A shallow embedding of [src/vsgGIS/gdal_utils.cpp]:

    - the two dataset compatibility checks
      [compatibleDatasetProjections] and
      [compatibleDatasetProjectionsTransformAndSizes];
    - the numeric default policy [default_value], the vector helpers
      [default_vec2], [default_vec3], [default_vec4];
    - the typed buffer factory [createImage2D] with its 28-entry
      dispatch table.

    C++ [double] values are IEEE-754 binary64 numbers, represented by the
    Standard Library's [spec_float]; comparisons are the IEEE comparisons
    [SFltb] and [SFeqb] (so NaN compares unequal to itself and the two
    zeros compare equal).  Machine integers are [Z] with the conversion
    wrap-around written out. *)

From Stdlib Require Import ZArith List String Bool Lia.
From Stdlib Require Import Floats.SpecFloat.
Import ListNotations.
Local Open Scope Z_scope.

(** ** C++ scalar values *)

Definition double := spec_float.

(** The literal [0.0]. *)
Definition d_zero : double := S754_zero false.

(** [x < y], [x > y], [x == y] and [x != y] on [double]. *)
Definition d_lt (x y : double) : bool := SFltb x y.
Definition d_gt (x y : double) : bool := SFltb y x.
Definition d_eq (x y : double) : bool := SFeqb x y.
Definition d_ne (x y : double) : bool := negb (SFeqb x y).

Definition is_nan (x : double) : bool :=
  match x with S754_nan => true | _ => false end.

Definition is_zero (x : double) : bool :=
  match x with S754_zero _ => true | _ => false end.

(** ** C strings behind [const char*]

    A non-null [const char*] is an address together with the bytes stored
    there up to the terminating NUL.  [p == q] compares addresses only,
    [strcmp] compares the bytes only. *)

Record c_string := mk_c_string { cs_addr : Z; cs_bytes : string }.

(** [None] is the null pointer. *)
Definition const_char_ptr := option c_string.

Definition ptr_eq (p q : const_char_ptr) : bool :=
  match p, q with
  | None, None => true
  | Some a, Some b => cs_addr a =? cs_addr b
  | _, _ => false
  end.

Definition strcmp (p q : c_string) : Z :=
  match String.compare (cs_bytes p) (cs_bytes q) with
  | Eq => 0
  | Lt => -1
  | Gt => 1
  end.

(** ** The GDAL dataset interface *)

Inductive CPLErr := CE_None | CE_Debug | CE_Warning | CE_Failure | CE_Fatal.

Definition CPLErr_eqb (x y : CPLErr) : bool :=
  match x, y with
  | CE_None, CE_None | CE_Debug, CE_Debug | CE_Warning, CE_Warning
  | CE_Failure, CE_Failure | CE_Fatal, CE_Fatal => true
  | _, _ => false
  end.

(** A [double[6]] array. *)
Record GeoTransform := mk_gt {
  gt0 : double; gt1 : double; gt2 : double;
  gt3 : double; gt4 : double; gt5 : double
}.

(** [t[i]] for [0 <= i < 6] (the only indices the checker uses). *)
Definition gt_at (t : GeoTransform) (i : nat) : double :=
  match i with
  | 0%nat => gt0 t | 1%nat => gt1 t | 2%nat => gt2 t
  | 3%nat => gt3 t | 4%nat => gt4 t | _ => gt5 t
  end.

(** Modelled from the spec: the raster library's dataset class is not part
    of the sources; section 6 of the specification lists the four
    operations the checker consumes.  [GetRasterXSize] and
    [GetRasterYSize] return the two stored dimensions of the raster.
    [GetProjectionRef] and [GetGeoTransform] are answered by the format
    driver behind the dataset, which may compute, cache or refresh its
    answer (they are non-const member functions, called through
    [const_cast]): each takes the object's state and returns its answer
    with the state afterwards.  [GetGeoTransform] returns the error code
    and the contents of the caller's array after the call. *)
Class GDALDataset (D : Type) := {
  GetProjectionRef : D -> const_char_ptr * D;
  GetRasterXSize : D -> Z;
  GetRasterYSize : D -> Z;
  GetGeoTransform : D -> (CPLErr * GeoTransform) * D
}.

(** ** The compatibility checker *)

Section Checker.

Context {D : Type} `{GDALDataset D}.

(** A reference [const GDALDataset&] is the address of an object; the
    store maps every address to the object living there, so that two
    references to one object share its state. *)
Definition handle := Z.
Definition Store := handle -> D.

Definition upd (w : Store) (h : handle) (d : D) : Store :=
  fun k => if k =? h then d else w k.

(** Computations that call into datasets. *)
Definition M (A : Type) := Store -> A * Store.

Definition ret {A} (a : A) : M A := fun w => (a, w).

Definition bind {A B} (m : M A) (k : A -> M B) : M B :=
  fun w => let (a, w') := m w in k a w'.

(** [h.method()] *)
Definition call {A} (method : D -> A * D) (h : handle) : M A :=
  fun w => let (a, d') := method (w h) in (a, upd w h d').

(** [h.accessor()] *)
Definition read {A} (accessor : D -> A) (h : handle) : M A :=
  fun w => (accessor (w h), w).

Notation "x <- m ;; k" := (bind m (fun x => k))
  (at level 61, m at next level, right associativity).

(** gdal_utils.cpp, lines 30-45.  Line 35 reads [rhs_projectionRef] from
    [lhs], as the source does.  The final [match] is lines 41 and 44:
    false when one of the two pointers is null, otherwise the result of
    [strcmp]. *)
Definition compatibleDatasetProjections (lhs rhs : handle) : M bool :=
  if lhs =? rhs then ret true else
  lhs_projectionRef <- call GetProjectionRef lhs ;;
  rhs_projectionRef <- call GetProjectionRef lhs ;;
  if ptr_eq lhs_projectionRef rhs_projectionRef then ret true else
  match lhs_projectionRef, rhs_projectionRef with
  | Some l, Some r => ret (strcmp l r =? 0)
  | _, _ => ret false
  end.

(** The condition of the [if] at line 54; [||] evaluates its right operand
    only when the left one is false. *)
Definition rasterSizesDiffer (lhs rhs : handle) : M bool :=
  lx <- read GetRasterXSize lhs ;;
  rx <- read GetRasterXSize rhs ;;
  if negb (lx =? rx) then ret true else
  ly <- read GetRasterYSize lhs ;;
  ry <- read GetRasterYSize rhs ;;
  ret (negb (ly =? ry)).

(** The loop of lines 72-79 over the indices still to visit. *)
Fixpoint transformsEqual (idx : list nat) (l r : GeoTransform) : bool :=
  match idx with
  | [] => true
  | i :: rest =>
      if d_ne (gt_at l i) (gt_at r i) then false
      else transformsEqual rest l r
  end.

Definition valid (e : CPLErr) : Z := if CPLErr_eqb e CE_None then 1 else 0.

(** gdal_utils.cpp, lines 47-80. *)
Definition compatibleDatasetProjectionsTransformAndSizes
    (lhs rhs : handle) : M bool :=
  ok <- compatibleDatasetProjections lhs rhs ;;
  if negb ok then ret false else
  differ <- rasterSizesDiffer lhs rhs ;;
  if differ then ret false else
  l <- call GetGeoTransform lhs ;;
  r <- call GetGeoTransform rhs ;;
  let numberWithValidTransforms := 0 + valid (fst l) + valid (fst r) in
  if numberWithValidTransforms =? 0 then ret true else
  if numberWithValidTransforms =? 1 then ret false else
  ret (transformsEqual (seq 0 6) (snd l) (snd r)).

End Checker.

(** A dataset driven by a script, used to run the checker on concrete
    inputs: [GetProjectionRef] answers with the head of [projectionRefs]
    and moves on, the last answer repeating for ever; the other three
    operations read their field and [GetGeoTransform] leaves the object
    alone. *)
Record ScriptedDataset := mk_sds {
  projectionRefs : list const_char_ptr;
  rasterXSize : Z;
  rasterYSize : Z;
  geoTransform : CPLErr * GeoTransform
}.

Definition scripted_GetProjectionRef (d : ScriptedDataset)
    : const_char_ptr * ScriptedDataset :=
  match projectionRefs d with
  | [] => (None, d)
  | [p] => (p, d)
  | p :: rest =>
      (p, mk_sds rest (rasterXSize d) (rasterYSize d) (geoTransform d))
  end.

#[export] Instance ScriptedDataset_GDALDataset : GDALDataset ScriptedDataset := {
  GetProjectionRef := scripted_GetProjectionRef;
  GetRasterXSize := rasterXSize;
  GetRasterYSize := rasterYSize;
  GetGeoTransform d := (geoTransform d, d)
}.

(** ** Scalar types of the buffers *)

Inductive CType :=
  uint8_t | uint16_t | int16_t | uint32_t | int32_t | float_t | double_t.

(** A value of one of these types: an integer or a floating-point number. *)
Inductive scalar := SInt (z : Z) | SFloat (f : spec_float).

Definition bit_width (T : CType) : Z :=
  match T with
  | uint8_t => 8
  | uint16_t | int16_t => 16
  | uint32_t | int32_t | float_t => 32
  | double_t => 64
  end.

Definition is_signed (T : CType) : bool :=
  match T with
  | uint8_t | uint16_t | uint32_t => false
  | _ => true
  end.

(** [std::numeric_limits<T>::is_integer] *)
Definition is_integer (T : CType) : bool :=
  match T with
  | float_t | double_t => false
  | _ => true
  end.

(** The integers a value of integer type [T] can hold. *)
Definition representable (T : CType) (z : Z) : Prop :=
  if is_signed T
  then - 2 ^ (bit_width T - 1) <= z < 2 ^ (bit_width T - 1)
  else 0 <= z < 2 ^ bit_width T.

(** [std::numeric_limits<T>::min()]: the lowest value of an integer type,
    the smallest positive normal number of a floating type. *)
Definition numeric_limits_min (T : CType) : scalar :=
  match T with
  | uint8_t | uint16_t | uint32_t => SInt 0
  | int16_t => SInt (-32768)
  | int32_t => SInt (-2147483648)
  | float_t => SFloat (S754_finite false 8388608 (-149))
  | double_t => SFloat (S754_finite false 4503599627370496 (-1074))
  end.

(** [std::numeric_limits<T>::max()] *)
Definition numeric_limits_max (T : CType) : scalar :=
  match T with
  | uint8_t => SInt 255
  | uint16_t => SInt 65535
  | int16_t => SInt 32767
  | uint32_t => SInt 4294967295
  | int32_t => SInt 2147483647
  | float_t => SFloat (S754_finite false 16777215 104)
  | double_t => SFloat (S754_finite false 9007199254740991 971)
  end.

(** Conversion of a [double] to [float]: round to nearest even in
    binary32. *)
Definition double_to_float (x : double) : spec_float :=
  match x with
  | S754_finite s m e => binary_round 24 128 s m e
  | _ => x
  end.

(** Conversion of a [double] towards zero to an integer. *)
Definition double_to_Z (x : double) : Z :=
  match x with
  | S754_finite s m e =>
      let a := if 0 <=? e then Z.shiftl (Zpos m) e else Z.shiftr (Zpos m) (- e) in
      if s then - a else a
  | _ => 0
  end.

(** [static_cast<T>(0)] *)
Definition static_cast_int (T : CType) (z : Z) : scalar :=
  if is_integer T then SInt z else SFloat (binary_normalize 53 1024 z 0 false).

(** [static_cast<T>(x)] for a [double] [x]; [default_value] reaches it only
    for the floating types. *)
Definition static_cast_double (T : CType) (x : double) : scalar :=
  match T with
  | float_t => SFloat (double_to_float x)
  | double_t => SFloat x
  | _ => SInt (double_to_Z x)
  end.

(** gdal_utils.cpp, lines 82-95. *)
Definition default_value (T : CType) (scale : double) : scalar :=
  if is_integer T then
    if d_lt scale d_zero then numeric_limits_min T
    else if d_gt scale d_zero then numeric_limits_max T
    else static_cast_int T 0
  else
    static_cast_double T scale.

(** ** Small vectors *)

(** [vsg::dvec4]: four doubles, [value[0]] to [value[3]]. *)
Record dvec4 := mk_dvec4 { vx : double; vy : double; vz : double; vw : double }.

(** [value[i]].  The operator does not check its index: inside the range
    it yields the component; outside it reads whatever lies next to the
    vector, which no input determines; the result is then [None]. *)
Definition vec4_at (value : dvec4) (i : Z) : option double :=
  if i =? 0 then Some (vx value)
  else if i =? 1 then Some (vy value)
  else if i =? 2 then Some (vz value)
  else if i =? 3 then Some (vw value)
  else None.

(** One channel of a fill value: a scalar, or [None] when it was derived
    from a read outside the default vector. *)
Definition channel := option scalar.

(** [default_value<T>(value[i])] *)
Definition default_channel (T : CType) (value : dvec4) (i : Z) : channel :=
  option_map (default_value T) (vec4_at value i).

(** gdal_utils.cpp, lines 97-101. *)
Definition default_vec2 (T : CType) (value : dvec4) : list channel :=
  [default_channel T value 0; default_channel T value 1].

(** gdal_utils.cpp, lines 103-107. *)
Definition default_vec3 (T : CType) (value : dvec4) : list channel :=
  [default_channel T value 0; default_channel T value 1;
   default_channel T value 2].

(** gdal_utils.cpp, lines 109-113; the last index is 4, as in the source. *)
Definition default_vec4 (T : CType) (value : dvec4) : list channel :=
  [default_channel T value 0; default_channel T value 1;
   default_channel T value 2; default_channel T value 4].

(** ** Pixel encodings and format tags *)

(** Modelled from the spec: the enumeration of the raster library is not
    part of the sources.  It holds the seven scalar encodings of section 3
    of the specification, under the names the source uses, and the
    encodings the raster library defines beyond them (unknown, and the
    four complex ones of section 8). *)
Inductive GDALDataType :=
  | GDT_Unknown | GDT_Byte | GDT_UInt16 | GDT_Int16 | GDT_UInt32 | GDT_Int32
  | GDT_Float32 | GDT_Float64
  | GDT_CInt16 | GDT_CInt32 | GDT_CFloat32 | GDT_CFloat64.

(** The numeric value of the enumerators, which orders the map keys. *)
Definition GDALDataType_code (t : GDALDataType) : Z :=
  match t with
  | GDT_Unknown => 0 | GDT_Byte => 1 | GDT_UInt16 => 2 | GDT_Int16 => 3
  | GDT_UInt32 => 4 | GDT_Int32 => 5 | GDT_Float32 => 6 | GDT_Float64 => 7
  | GDT_CInt16 => 8 | GDT_CInt32 => 9 | GDT_CFloat32 => 10
  | GDT_CFloat64 => 11
  end.

(** The 28 format tags the source names. *)
Inductive VkFormat :=
  | VK_FORMAT_R8_UNORM | VK_FORMAT_R16_UNORM | VK_FORMAT_R16_SNORM
  | VK_FORMAT_R32_UINT | VK_FORMAT_R32_SINT | VK_FORMAT_R32_SFLOAT
  | VK_FORMAT_R64_SFLOAT
  | VK_FORMAT_R8G8_UNORM | VK_FORMAT_R16G16_UNORM | VK_FORMAT_R16G16_SNORM
  | VK_FORMAT_R32G32_UINT | VK_FORMAT_R32G32_SINT | VK_FORMAT_R32G32_SFLOAT
  | VK_FORMAT_R64G64_SFLOAT
  | VK_FORMAT_R8G8B8_UNORM | VK_FORMAT_R16G16B16_UNORM
  | VK_FORMAT_R16G16B16_SNORM | VK_FORMAT_R32G32B32_UINT
  | VK_FORMAT_R32G32B32_SINT | VK_FORMAT_R32G32B32_SFLOAT
  | VK_FORMAT_R64G64B64_SFLOAT
  | VK_FORMAT_R8G8B8A8_UNORM | VK_FORMAT_R16G16B16A16_UNORM
  | VK_FORMAT_R16G16B16A16_SNORM | VK_FORMAT_R32G32B32A32_UINT
  | VK_FORMAT_R32G32B32A32_SINT | VK_FORMAT_R32G32B32A32_SFLOAT
  | VK_FORMAT_R64G64B64A64_SFLOAT.

(** ** Typed 2D buffers *)

(** The element type of a [vsg::Array2D<...>]: a scalar type and the
    number of components per element.  The array classes below are the
    28 the source names: arrays of a scalar ([ubyteArray2D] of [uint8_t],
    ...) and arrays of small vectors ([ubvec2Array2D] of two [uint8_t],
    [usvec2] of [uint16_t], [svec2] of [int16_t], [uivec2] of [uint32_t],
    [ivec2] of [int32_t], [vec2] of [float], [dvec2] of [double]). *)
Record ValueType := mk_vt { scalar_type : CType; components : Z }.

Definition ubyteArray2D := mk_vt uint8_t 1.
Definition ushortArray2D := mk_vt uint16_t 1.
Definition shortArray2D := mk_vt int16_t 1.
Definition uintArray2D := mk_vt uint32_t 1.
Definition intArray2D := mk_vt int32_t 1.
Definition floatArray2D := mk_vt float_t 1.
Definition doubleArray2D := mk_vt double_t 1.

Definition ubvec2Array2D := mk_vt uint8_t 2.
Definition usvec2Array2D := mk_vt uint16_t 2.
Definition svec2Array2D := mk_vt int16_t 2.
Definition uivec2Array2D := mk_vt uint32_t 2.
Definition ivec2Array2D := mk_vt int32_t 2.
Definition vec2Array2D := mk_vt float_t 2.
Definition dvec2Array2D := mk_vt double_t 2.

Definition ubvec3Array2D := mk_vt uint8_t 3.
Definition usvec3Array2D := mk_vt uint16_t 3.
Definition svec3Array2D := mk_vt int16_t 3.
Definition uivec3Array2D := mk_vt uint32_t 3.
Definition ivec3Array2D := mk_vt int32_t 3.
Definition vec3Array2D := mk_vt float_t 3.
Definition dvec3Array2D := mk_vt double_t 3.

Definition ubvec4Array2D := mk_vt uint8_t 4.
Definition usvec4Array2D := mk_vt uint16_t 4.
Definition svec4Array2D := mk_vt int16_t 4.
Definition uivec4Array2D := mk_vt uint32_t 4.
Definition ivec4Array2D := mk_vt int32_t 4.
Definition vec4Array2D := mk_vt float_t 4.
Definition dvec4Array2D := mk_vt double_t 4.

(** Modelled from the spec: the buffer container is not part of the
    sources; sections 3 and 6 of the specification describe it as a 2D
    array of width x height elements of one concrete scalar or small
    vector type, tagged with a format identifier, every element
    initialised to the fill value handed to [create]. *)
Record Data := mk_data {
  value_type : ValueType;
  a_width : Z;
  a_height : Z;
  layout : VkFormat;
  elements : list (list channel)
}.

Definition Array2D_create (vt : ValueType) (w h : Z) (value : list channel)
    (format : VkFormat) : Data :=
  mk_data vt w h format (repeat value (Z.to_nat (w * h))).

(** Number of elements, and of scalars over all the elements. *)
Definition valueCount (d : Data) : Z := Z.of_nat (List.length (elements d)).
Definition scalarCount (d : Data) : Z := Z.of_nat (List.length (List.concat (elements d))).

(** Conversion of an [int] argument to a [uint32_t] parameter. *)
Definition to_uint32 (z : Z) : Z := z mod 2 ^ 32.

(** ** The dispatch table *)

(** [std::pair<GDALDataType, int>] *)
Definition TypeCompontents := (GDALDataType * Z)%type.

(** [std::function<ref_ptr<Data>(uint32_t w, uint32_t h, dvec4 def)>] *)
Definition CreateFunction := Z -> Z -> dvec4 -> Data.

Definition key_eqb (a b : TypeCompontents) : bool :=
  (GDALDataType_code (fst a) =? GDALDataType_code (fst b)) && (snd a =? snd b).

(** A [std::map] as a list of entries with distinct keys. *)
Definition std_map := list (TypeCompontents * CreateFunction).

(** [m[k] = f] *)
Fixpoint map_assign (m : std_map) (k : TypeCompontents) (f : CreateFunction)
    : std_map :=
  match m with
  | [] => [(k, f)]
  | (k', f') :: rest =>
      if key_eqb k' k then (k, f) :: rest
      else (k', f') :: map_assign rest k f
  end.

(** [m.find(k)], with [None] for [m.end()]. *)
Fixpoint map_find (m : std_map) (k : TypeCompontents) : option CreateFunction :=
  match m with
  | [] => None
  | (k', f) :: rest => if key_eqb k' k then Some f else map_find rest k
  end.

(** A scalar fill value [default_value<T>(d[0])]. *)
Definition scalar_fill (T : CType) (d : dvec4) : list channel :=
  [default_channel T d 0].

(** gdal_utils.cpp, lines 121-152. *)
Definition createMap : std_map :=
  let createMap : std_map := [] in
  let createMap := map_assign createMap (GDT_Byte, 1) (fun w h d => Array2D_create ubyteArray2D w h (scalar_fill uint8_t d) VK_FORMAT_R8_UNORM) in
  let createMap := map_assign createMap (GDT_UInt16, 1) (fun w h d => Array2D_create ushortArray2D w h (scalar_fill uint16_t d) VK_FORMAT_R16_UNORM) in
  let createMap := map_assign createMap (GDT_Int16, 1) (fun w h d => Array2D_create shortArray2D w h (scalar_fill int16_t d) VK_FORMAT_R16_SNORM) in
  let createMap := map_assign createMap (GDT_UInt32, 1) (fun w h d => Array2D_create uintArray2D w h (scalar_fill uint32_t d) VK_FORMAT_R32_UINT) in
  let createMap := map_assign createMap (GDT_Int32, 1) (fun w h d => Array2D_create intArray2D w h (scalar_fill int32_t d) VK_FORMAT_R32_SINT) in
  let createMap := map_assign createMap (GDT_Float32, 1) (fun w h d => Array2D_create floatArray2D w h (scalar_fill float_t d) VK_FORMAT_R32_SFLOAT) in
  let createMap := map_assign createMap (GDT_Float64, 1) (fun w h d => Array2D_create doubleArray2D w h (scalar_fill double_t d) VK_FORMAT_R64_SFLOAT) in

  let createMap := map_assign createMap (GDT_Byte, 2) (fun w h d => Array2D_create ubvec2Array2D w h (default_vec2 uint8_t d) VK_FORMAT_R8G8_UNORM) in
  let createMap := map_assign createMap (GDT_UInt16, 2) (fun w h d => Array2D_create usvec2Array2D w h (default_vec2 uint16_t d) VK_FORMAT_R16G16_UNORM) in
  let createMap := map_assign createMap (GDT_Int16, 2) (fun w h d => Array2D_create svec2Array2D w h (default_vec2 int16_t d) VK_FORMAT_R16G16_SNORM) in
  let createMap := map_assign createMap (GDT_UInt32, 2) (fun w h d => Array2D_create uivec2Array2D w h (default_vec2 uint32_t d) VK_FORMAT_R32G32_UINT) in
  let createMap := map_assign createMap (GDT_Int32, 2) (fun w h d => Array2D_create ivec2Array2D w h (default_vec2 int32_t d) VK_FORMAT_R32G32_SINT) in
  let createMap := map_assign createMap (GDT_Float32, 2) (fun w h d => Array2D_create vec2Array2D w h (default_vec2 float_t d) VK_FORMAT_R32G32_SFLOAT) in
  let createMap := map_assign createMap (GDT_Float64, 2) (fun w h d => Array2D_create dvec2Array2D w h (default_vec2 double_t d) VK_FORMAT_R64G64_SFLOAT) in

  let createMap := map_assign createMap (GDT_Byte, 3) (fun w h d => Array2D_create ubvec3Array2D w h (default_vec3 uint8_t d) VK_FORMAT_R8G8B8_UNORM) in
  let createMap := map_assign createMap (GDT_UInt16, 3) (fun w h d => Array2D_create usvec3Array2D w h (default_vec3 uint16_t d) VK_FORMAT_R16G16B16_UNORM) in
  let createMap := map_assign createMap (GDT_Int16, 3) (fun w h d => Array2D_create svec3Array2D w h (default_vec3 int16_t d) VK_FORMAT_R16G16B16_SNORM) in
  let createMap := map_assign createMap (GDT_UInt32, 3) (fun w h d => Array2D_create uivec3Array2D w h (default_vec3 uint32_t d) VK_FORMAT_R32G32B32_UINT) in
  let createMap := map_assign createMap (GDT_Int32, 3) (fun w h d => Array2D_create ivec3Array2D w h (default_vec3 int32_t d) VK_FORMAT_R32G32B32_SINT) in
  let createMap := map_assign createMap (GDT_Float32, 3) (fun w h d => Array2D_create vec3Array2D w h (default_vec3 float_t d) VK_FORMAT_R32G32B32_SFLOAT) in
  let createMap := map_assign createMap (GDT_Float64, 3) (fun w h d => Array2D_create dvec3Array2D w h (default_vec3 double_t d) VK_FORMAT_R64G64B64_SFLOAT) in

  let createMap := map_assign createMap (GDT_Byte, 4) (fun w h d => Array2D_create ubvec4Array2D w h (default_vec4 uint8_t d) VK_FORMAT_R8G8B8A8_UNORM) in
  let createMap := map_assign createMap (GDT_UInt16, 4) (fun w h d => Array2D_create usvec4Array2D w h (default_vec4 uint16_t d) VK_FORMAT_R16G16B16A16_UNORM) in
  let createMap := map_assign createMap (GDT_Int16, 4) (fun w h d => Array2D_create svec4Array2D w h (default_vec4 int16_t d) VK_FORMAT_R16G16B16A16_SNORM) in
  let createMap := map_assign createMap (GDT_UInt32, 4) (fun w h d => Array2D_create uivec4Array2D w h (default_vec4 uint32_t d) VK_FORMAT_R32G32B32A32_UINT) in
  let createMap := map_assign createMap (GDT_Int32, 4) (fun w h d => Array2D_create ivec4Array2D w h (default_vec4 int32_t d) VK_FORMAT_R32G32B32A32_SINT) in
  let createMap := map_assign createMap (GDT_Float32, 4) (fun w h d => Array2D_create vec4Array2D w h (default_vec4 float_t d) VK_FORMAT_R32G32B32A32_SFLOAT) in
  let createMap := map_assign createMap (GDT_Float64, 4) (fun w h d => Array2D_create dvec4Array2D w h (default_vec4 double_t d) VK_FORMAT_R64G64B64A64_SFLOAT) in
  createMap.

(** gdal_utils.cpp, lines 116-161.  [None] is the empty [ref_ptr]. *)
Definition createImage2D (width height numComponents : Z)
    (dataType : GDALDataType) (def : dvec4) : option Data :=
  match map_find createMap (dataType, numComponents) with
  | None => None
  | Some create => Some (create (to_uint32 width) (to_uint32 height) def)
  end.

(** ** Vocabulary of the statements *)

Section CheckerVocabulary.

Context {D : Type} `{GDALDataset D}.

(** The dataset [d] has the valid transform [t]: reading the transform
    succeeds with [t], and so does reading it again. *)
Definition valid_transform (d : D) (t : GeoTransform) : Prop :=
  fst (GetGeoTransform d) = (CE_None, t) /\
  fst (GetGeoTransform (snd (GetGeoTransform d))) = (CE_None, t).

(** Two consecutive calls of [GetProjectionRef] on [d] return the same
    pointer. *)
Definition stable_projectionRef (d : D) : Prop :=
  ptr_eq (fst (GetProjectionRef d))
         (fst (GetProjectionRef (snd (GetProjectionRef d)))) = true.

End CheckerVocabulary.

(** Every component of the transform compares equal to itself. *)
Definition self_consistent (t : GeoTransform) : Prop :=
  forallb (fun i => d_eq (gt_at t i) (gt_at t i)) (seq 0 6) = true.

(** Concrete datasets and stores. *)
Definition wkt_4326 : const_char_ptr := Some (mk_c_string 4096 "EPSG:4326").
Definition wkt_3857 : const_char_ptr := Some (mk_c_string 8192 "EPSG:3857").

(** 1.0 and 2.0 in binary64. *)
Definition d_one : double := S754_finite false 4503599627370496 (-52).
Definition d_two : double := S754_finite false 4503599627370496 (-51).

Definition north_up : GeoTransform :=
  mk_gt d_zero d_one d_zero d_zero d_zero (SFopp d_one).
Definition north_up_coarse : GeoTransform :=
  mk_gt d_zero d_two d_zero d_zero d_zero (SFopp d_two).

Definition tile (refs : list const_char_ptr) (t : CPLErr * GeoTransform)
    : ScriptedDataset :=
  mk_sds refs 512 512 t.

(** A dataset without a readable transform. *)
Definition unreadable : CPLErr * GeoTransform := (CE_Failure, north_up).

(** The store with [b] at address 2 and [a] at every other address, so
    that handle 1 refers to [a] and handle 2 to [b]. *)
Definition two_datasets (a b : ScriptedDataset) : @Store ScriptedDataset :=
  fun h => if h =? 2 then b else a.

(** The scalar type each of the seven supported encodings names
    (section 3 of the specification). *)
Definition encoding_type (t : GDALDataType) : option CType :=
  match t with
  | GDT_Byte => Some uint8_t
  | GDT_UInt16 => Some uint16_t
  | GDT_Int16 => Some int16_t
  | GDT_UInt32 => Some uint32_t
  | GDT_Int32 => Some int32_t
  | GDT_Float32 => Some float_t
  | GDT_Float64 => Some double_t
  | _ => None
  end.

(** Modelled from the spec: what a format tag says (section 6 of the
    specification: scalar type, channel layout and normalisation), read
    off the tag's name: one letter per channel, each followed by its bit
    width, then the numeric interpretation. *)
Inductive NumericKind := UNORM | SNORM | UINT | SINT | SFLOAT.

Record FormatInfo := mk_fi {
  fi_channels : Z;
  fi_bits : Z;
  fi_kind : NumericKind
}.

Definition format_info (f : VkFormat) : FormatInfo :=
  match f with
  | VK_FORMAT_R8_UNORM => mk_fi 1 8 UNORM
  | VK_FORMAT_R16_UNORM => mk_fi 1 16 UNORM
  | VK_FORMAT_R16_SNORM => mk_fi 1 16 SNORM
  | VK_FORMAT_R32_UINT => mk_fi 1 32 UINT
  | VK_FORMAT_R32_SINT => mk_fi 1 32 SINT
  | VK_FORMAT_R32_SFLOAT => mk_fi 1 32 SFLOAT
  | VK_FORMAT_R64_SFLOAT => mk_fi 1 64 SFLOAT
  | VK_FORMAT_R8G8_UNORM => mk_fi 2 8 UNORM
  | VK_FORMAT_R16G16_UNORM => mk_fi 2 16 UNORM
  | VK_FORMAT_R16G16_SNORM => mk_fi 2 16 SNORM
  | VK_FORMAT_R32G32_UINT => mk_fi 2 32 UINT
  | VK_FORMAT_R32G32_SINT => mk_fi 2 32 SINT
  | VK_FORMAT_R32G32_SFLOAT => mk_fi 2 32 SFLOAT
  | VK_FORMAT_R64G64_SFLOAT => mk_fi 2 64 SFLOAT
  | VK_FORMAT_R8G8B8_UNORM => mk_fi 3 8 UNORM
  | VK_FORMAT_R16G16B16_UNORM => mk_fi 3 16 UNORM
  | VK_FORMAT_R16G16B16_SNORM => mk_fi 3 16 SNORM
  | VK_FORMAT_R32G32B32_UINT => mk_fi 3 32 UINT
  | VK_FORMAT_R32G32B32_SINT => mk_fi 3 32 SINT
  | VK_FORMAT_R32G32B32_SFLOAT => mk_fi 3 32 SFLOAT
  | VK_FORMAT_R64G64B64_SFLOAT => mk_fi 3 64 SFLOAT
  | VK_FORMAT_R8G8B8A8_UNORM => mk_fi 4 8 UNORM
  | VK_FORMAT_R16G16B16A16_UNORM => mk_fi 4 16 UNORM
  | VK_FORMAT_R16G16B16A16_SNORM => mk_fi 4 16 SNORM
  | VK_FORMAT_R32G32B32A32_UINT => mk_fi 4 32 UINT
  | VK_FORMAT_R32G32B32A32_SINT => mk_fi 4 32 SINT
  | VK_FORMAT_R32G32B32A32_SFLOAT => mk_fi 4 32 SFLOAT
  | VK_FORMAT_R64G64B64A64_SFLOAT => mk_fi 4 64 SFLOAT
  end.

(** The numeric interpretation the table gives each scalar type: the 8 and
    16 bit integers are normalised, the 32 bit integers are plain
    integers, the floating types are floats. *)
Definition documented_kind (T : CType) : NumericKind :=
  match T with
  | uint8_t | uint16_t => UNORM
  | int16_t => SNORM
  | uint32_t => UINT
  | int32_t => SINT
  | float_t | double_t => SFLOAT
  end.

(** The tag documented for an encoding and a channel count. *)
Definition documented_format (t : GDALDataType) (channelCount : Z)
    : option FormatInfo :=
  match encoding_type t with
  | Some T =>
      if (1 <=? channelCount) && (channelCount <=? 4)
      then Some (mk_fi channelCount (bit_width T) (documented_kind T))
      else None
  | None => None
  end.

(** The fill value the table entry for [n] channels derives. *)
Definition table_fill (T : CType) (n : Z) (d : dvec4) : list channel :=
  if n =? 1 then scalar_fill T d
  else if n =? 2 then default_vec2 T d
  else if n =? 3 then default_vec3 T d
  else default_vec4 T d.

Definition keys (m : std_map) : list TypeCompontents := map fst m.

(** The least and the greatest integer a type can hold. *)
Definition is_min_of (T : CType) (z : Z) : Prop :=
  representable T z /\ forall z', representable T z' -> z <= z'.

Definition is_max_of (T : CType) (z : Z) : Prop :=
  representable T z /\ forall z', representable T z' -> z' <= z.

(** -1.0 and 2.5 in binary64, 2.5 in binary32. *)
Definition d_minus_one : double := SFopp d_one.
Definition d_2_5 : double := S754_finite false 5629499534213120 (-51).
Definition f_2_5 : spec_float := S754_finite false 10485760 (-22).

(** ** Vocabulary for the further properties *)

(** The rule of lines 62-79 on the results of the two transform reads. *)
Definition transformsAgree (l r : CPLErr * GeoTransform) : bool :=
  let n := valid (fst l) + valid (fst r) in
  if n =? 0 then true
  else if n =? 1 then false
  else transformsEqual (seq 0 6) (snd l) (snd r).

Section GridVocabulary.

Context {D : Type} `{GDALDataset D}.

(** Reading the projection reference or the transform of [d] leaves [d]
    as it is. *)
Definition quiescent (d : D) : Prop :=
  snd (GetProjectionRef d) = d /\ snd (GetGeoTransform d) = d.

(** Equal raster sizes and agreeing transforms. *)
Definition sameGrid (l r : D) : bool :=
  (GetRasterXSize l =? GetRasterXSize r) &&
  (GetRasterYSize l =? GetRasterYSize r) &&
  transformsAgree (fst (GetGeoTransform l)) (fst (GetGeoTransform r)).

End GridVocabulary.

(** A scalar is a value of type [T]: an integer in range for an integer
    type, a floating-point number for a floating type. *)
Definition well_typed (T : CType) (s : scalar) : Prop :=
  match s with
  | SInt z => is_integer T = true /\ representable T z
  | SFloat _ => is_integer T = false
  end.

(** The integer inside a scalar. *)
Definition scalar_Z (s : scalar) : Z :=
  match s with SInt z => z | SFloat _ => 0 end.

(** Further concrete datasets: a transform with a NaN component, a
    smaller raster, and a store of three datasets. *)
Definition broken_transform : GeoTransform :=
  mk_gt d_zero S754_nan d_zero d_zero d_zero (SFopp d_one).

Definition small_tile (refs : list const_char_ptr)
    (t : CPLErr * GeoTransform) : ScriptedDataset :=
  mk_sds refs 256 512 t.

Definition three_datasets (a b c : ScriptedDataset) : @Store ScriptedDataset :=
  fun h => if h =? 2 then b else if h =? 3 then c else a.

(** ** Datasets with one projection string *)

Section ProjectionVocabulary.

Context {D : Type} `{GDALDataset D}.

(** The dataset [d] has one spatial reference: two consecutive calls of
    [GetProjectionRef] both return the null pointer, or both return a
    string and the two strings have the same bytes (at the same address
    or not). *)
Definition projectionRef_consistent (d : D) : bool :=
  match fst (GetProjectionRef d),
        fst (GetProjectionRef (snd (GetProjectionRef d))) with
  | None, None => true
  | Some l, Some r => String.eqb (cs_bytes l) (cs_bytes r)
  | _, _ => false
  end.

End ProjectionVocabulary.

(** The same projection string as [wkt_4326], held at another address. *)
Definition wkt_4326_copy : const_char_ptr :=
  Some (mk_c_string 8192 "EPSG:4326").

(** * Properties of the compatibility checker *)

(** IEEE equality on [double] is exact: two values compare equal only when
    they are the same number, the two zeros being one number. *)
Lemma d_eq_exact (x y : double) :
  d_eq x y = true -> x = y \/ (is_zero x = true /\ is_zero y = true).
Proof.
  unfold d_eq, SFeqb, SFcompare.
  destruct x as [sx | sx | | sx mx ex], y as [sy | sy | | sy my ey];
    try discriminate; try (destruct sx; discriminate);
    try (destruct sy; discriminate).
  - intros _. right. split; reflexivity.
  - destruct sx, sy; try discriminate; intros _; left; reflexivity.
  - destruct sx, sy; try discriminate;
      destruct (Z.compare_spec ex ey) as [E | E | E]; try discriminate; subst ey;
      change (Pos.compare_cont Eq mx my) with (Pos.compare mx my);
      destruct (Pos.compare_spec mx my) as [E | E | E];
      try discriminate; subst my; intros _; left; reflexivity.
Qed.

Lemma d_eq_refl_not_nan (x : double) : d_eq x x = true <-> is_nan x = false.
Proof.
  unfold d_eq, SFeqb, SFcompare.
  destruct x as [s | s | | s m e]; simpl; try tauto.
  - destruct s; tauto.
  - split; [discriminate | discriminate].
  - destruct s; rewrite Z.compare_refl, Pos.compare_cont_refl; simpl; tauto.
Qed.

Lemma transformsEqual_spec (idx : list nat) (l r : GeoTransform) :
  transformsEqual idx l r = true <->
  forall i, In i idx -> d_eq (gt_at l i) (gt_at r i) = true.
Proof.
  induction idx as [| j rest IH]; simpl.
  - split; [intros _ i [] | reflexivity].
  - unfold d_ne, d_eq in *.
    destruct (SFeqb (gt_at l j) (gt_at r j)) eqn:E; simpl.
    + rewrite IH. split.
      * intros Hrest i [-> | Hi]; [exact E | exact (Hrest i Hi)].
      * intros Hall i Hi. apply Hall. right. exact Hi.
    + split; [discriminate |].
      intros Hall. rewrite <- E. apply Hall. left. reflexivity.
Qed.

Section CheckerFacts.

Context {D : Type} `{GDALDataset D}.

Lemma upd_same (w : Store) (h : handle) (d : D) : upd w h d h = d.
Proof. unfold upd. rewrite Z.eqb_refl. reflexivity. Qed.

Lemma upd_other (w : Store) (h k : handle) (d : D) :
  k <> h -> upd w h d k = w k.
Proof.
  intros Hk. unfold upd. destruct (Z.eqb_spec k h); [contradiction | reflexivity].
Qed.

(** On one object the check returns at once and touches nothing. *)
Lemma compatibleDatasetProjections_same (a : handle) (w : Store) :
  compatibleDatasetProjections a a w = (true, w).
Proof. unfold compatibleDatasetProjections. rewrite Z.eqb_refl. reflexivity. Qed.

(** On two objects the answer is a function of two consecutive reads of
    the left one. *)
Lemma compatibleDatasetProjections_distinct (lhs rhs : handle) (w : Store) :
  lhs <> rhs ->
  fst (compatibleDatasetProjections lhs rhs w) =
    let p1 := fst (GetProjectionRef (w lhs)) in
    let p2 := fst (GetProjectionRef (snd (GetProjectionRef (w lhs)))) in
    if ptr_eq p1 p2 then true
    else match p1, p2 with
         | Some l, Some r => strcmp l r =? 0
         | _, _ => false
         end.
Proof.
  intros Hne. unfold compatibleDatasetProjections.
  destruct (Z.eqb_spec lhs rhs) as [E | _]; [contradiction |].
  unfold bind, call.
  destruct (GetProjectionRef (w lhs)) as [p1 d1]. rewrite upd_same.
  cbn [fst snd]. destruct (GetProjectionRef d1) as [p2 d2]. cbn [fst snd].
  destruct (ptr_eq p1 p2); [reflexivity |].
  destruct p1, p2; reflexivity.
Qed.

(** With stable projection reads the check accepts every pair. *)
Lemma compatibleDatasetProjections_stable (lhs rhs : handle) (w : Store) :
  stable_projectionRef (w lhs) ->
  fst (compatibleDatasetProjections lhs rhs w) = true.
Proof.
  intros Hst. destruct (Z.eq_dec lhs rhs) as [-> | Hne].
  - rewrite compatibleDatasetProjections_same. reflexivity.
  - rewrite compatibleDatasetProjections_distinct by assumption.
    unfold stable_projectionRef in Hst. simpl. rewrite Hst. reflexivity.
Qed.

(** With stable projection reads on both sides the check is symmetric. *)
Lemma compatibleDatasetProjections_stable_sym (a b : handle) (w : Store) :
  stable_projectionRef (w a) -> stable_projectionRef (w b) ->
  fst (compatibleDatasetProjections a b w) =
  fst (compatibleDatasetProjections b a w).
Proof.
  intros Ha Hb. rewrite !compatibleDatasetProjections_stable by assumption.
  reflexivity.
Qed.

(** What [h.method()] returns and leaves behind. *)
Lemma call_eq {A} (method : D -> A * D) (h : handle) (w : Store) :
  call method h w = (fst (method (w h)), upd w h (snd (method (w h)))).
Proof. unfold call. destruct (method (w h)); reflexivity. Qed.

(** Equal sizes pass the size test, which leaves the store as it is. *)
Lemma rasterSizesDiffer_equal (lhs rhs : handle) (w : Store) :
  GetRasterXSize (w lhs) = GetRasterXSize (w rhs) ->
  GetRasterYSize (w lhs) = GetRasterYSize (w rhs) ->
  rasterSizesDiffer lhs rhs w = (false, w).
Proof.
  intros HX HY. unfold rasterSizesDiffer, bind, read, ret. cbn beta iota.
  rewrite HX, Z.eqb_refl. cbn [negb]. rewrite HY, Z.eqb_refl. reflexivity.
Qed.

(** C7. Strictness ordering: whenever the full check
    [compatibleDatasetProjectionsTransformAndSizes] answers true on a pair
    of handles, the projection check [compatibleDatasetProjections]
    answers true on the same pair, run from the same store. *)
Theorem fully_compatible_implies_projections_compatible
    (lhs rhs : handle) (w : Store) :
  fst (compatibleDatasetProjectionsTransformAndSizes lhs rhs w) = true ->
  fst (compatibleDatasetProjections lhs rhs w) = true.
Proof.
  unfold compatibleDatasetProjectionsTransformAndSizes, bind.
  destruct (compatibleDatasetProjections lhs rhs w) as [ok w1].
  destruct ok; cbn [negb fst]; [reflexivity |].
  unfold ret. cbn [fst]. intros Hfalse. exact Hfalse.
Qed.

(** C10. For two distinct handles the answer of
    [compatibleDatasetProjections lhs rhs] does not depend on the object
    behind [rhs]: two stores that agree everywhere except at [rhs] (in
    particular two stores that differ only in the projection reference of
    [rhs]) give the same boolean.  The right-hand dataset is never read,
    so this holds whether or not the projection reads are stable. *)
Theorem projections_check_ignores_rhs (lhs rhs : handle) (w w' : Store) :
  lhs <> rhs ->
  (forall h, h <> rhs -> w h = w' h) ->
  fst (compatibleDatasetProjections lhs rhs w) =
  fst (compatibleDatasetProjections lhs rhs w').
Proof.
  intros Hne Hagree.
  rewrite !compatibleDatasetProjections_distinct by assumption.
  rewrite (Hagree lhs Hne). reflexivity.
Qed.

(** C5. Once the projection check has passed and the raster sizes have
    been found equal, the full check is decided by how many of the two
    [GetGeoTransform] calls returned [CE_None]: none, the answer is true;
    exactly one, the answer is false; both, the answer is true exactly
    when each of the six components of the two transforms compares equal
    ([==] on [double], without any tolerance). *)
Theorem fully_compatible_by_transform_count
    (lhs rhs : handle) (w w1 w2 w3 : Store)
    (el er : CPLErr) (tl tr : GeoTransform) :
  compatibleDatasetProjections lhs rhs w = (true, w1) ->
  GetRasterXSize (w1 lhs) = GetRasterXSize (w1 rhs) ->
  GetRasterYSize (w1 lhs) = GetRasterYSize (w1 rhs) ->
  call GetGeoTransform lhs w1 = ((el, tl), w2) ->
  call GetGeoTransform rhs w2 = ((er, tr), w3) ->
  let answer := fst (compatibleDatasetProjectionsTransformAndSizes lhs rhs w) in
  (el <> CE_None /\ er <> CE_None -> answer = true) /\
  ((el = CE_None /\ er <> CE_None) \/ (el <> CE_None /\ er = CE_None) ->
   answer = false) /\
  (el = CE_None /\ er = CE_None ->
   (answer = true <->
    forall i, (i < 6)%nat -> d_eq (gt_at tl i) (gt_at tr i) = true) /\
   (answer = true ->
    forall i, (i < 6)%nat ->
      gt_at tl i = gt_at tr i \/
      (is_zero (gt_at tl i) = true /\ is_zero (gt_at tr i) = true))).
Proof.
  intros Hpc HX HY Hl Hr answer. subst answer.
  unfold compatibleDatasetProjectionsTransformAndSizes, bind.
  rewrite Hpc. cbn [negb].
  rewrite (rasterSizesDiffer_equal lhs rhs w1 HX HY), Hl, Hr. cbn [fst snd].
  split; [| split].
  - intros [Hel Her]. destruct el, er; try reflexivity; congruence.
  - intros [[Hel Her] | [Hel Her]]; subst;
      [destruct er | destruct el]; try reflexivity; congruence.
  - intros [-> ->].
    change (fst (ret (transformsEqual (seq 0 6) tl tr) w3))
      with (transformsEqual (seq 0 6) tl tr).
    assert (Hiff : transformsEqual (seq 0 6) tl tr = true <->
                   forall i, (i < 6)%nat ->
                     d_eq (gt_at tl i) (gt_at tr i) = true).
    { rewrite transformsEqual_spec. split.
      - intros Hall i Hi. apply Hall. apply in_seq.
        split; [apply Nat.le_0_l | exact Hi].
      - intros Hall i Hi. apply Hall. apply in_seq in Hi. apply Hi. }
    split; [exact Hiff |].
    intros Heq i Hi. apply d_eq_exact. apply (proj1 Hiff Heq i Hi).
Qed.

(** C9. Reflexivity: on one and the same dataset the projection check
    answers true; and when the dataset has a valid transform ([CE_None] at
    each read, with the same six numbers) that is self-consistent (every
    component compares equal to itself), the full check answers true as
    well. *)
Theorem compatibility_reflexive (a : handle) (w : Store) (t : GeoTransform) :
  valid_transform (w a) t ->
  self_consistent t ->
  fst (compatibleDatasetProjections a a w) = true /\
  fst (compatibleDatasetProjectionsTransformAndSizes a a w) = true.
Proof.
  intros [Hfirst Hsecond] Hself. split.
  - rewrite compatibleDatasetProjections_same. reflexivity.
  - unfold compatibleDatasetProjectionsTransformAndSizes, bind.
    rewrite compatibleDatasetProjections_same. cbn [negb].
    rewrite rasterSizesDiffer_equal by reflexivity.
    rewrite call_eq. rewrite Hfirst.
    rewrite call_eq, upd_same. rewrite Hsecond. cbn [fst snd].
    change (transformsEqual (seq 0 6) t t = true).
    apply transformsEqual_spec. intros i Hi.
    exact (proj1 (forallb_forall _ _) Hself i Hi).
Qed.

End CheckerFacts.

(** ** The checker on concrete datasets *)

(** C6. Null handling fails on the code.  The left dataset has a
    projection reference, the right one has none (its [GetProjectionRef]
    returns the null pointer), and the check still answers true, because
    it compares the left reference with itself. *)
Theorem projections_check_accepts_one_missing_reference :
  let a := tile [wkt_4326] unreadable in
  let b := tile [None] unreadable in
  fst (GetProjectionRef a) = wkt_4326 /\
  fst (GetProjectionRef b) = None /\
  fst (compatibleDatasetProjections 1 2 (two_datasets a b)) = true.
Proof. repeat split; reflexivity. Qed.

Lemma fully_compatible_implies_projections_compatible_witness :
  let w := two_datasets (tile [wkt_4326] (CE_None, north_up))
                        (tile [wkt_4326] (CE_None, north_up)) in
  fst (compatibleDatasetProjectionsTransformAndSizes 1 2 w) = true /\
  fst (compatibleDatasetProjections 1 2 w) = true.
Proof.
  intros w. split; [reflexivity |].
  apply (fully_compatible_implies_projections_compatible 1 2 w).
  reflexivity.
Defined.

Lemma projections_check_ignores_rhs_witness :
  let a := tile [wkt_4326] unreadable in
  fst (compatibleDatasetProjections 1 2
         (two_datasets a (tile [wkt_4326] unreadable))) =
  fst (compatibleDatasetProjections 1 2
         (two_datasets a (tile [wkt_3857] unreadable))).
Proof.
  intros a.
  apply (projections_check_ignores_rhs 1 2).
  - discriminate.
  - intros h Hh. unfold two_datasets.
    destruct (Z.eqb_spec h 2); [contradiction | reflexivity].
Defined.

Lemma fully_compatible_by_transform_count_witness :
  let w := two_datasets (tile [wkt_4326] (CE_None, north_up))
                        (tile [wkt_4326] (CE_None, north_up_coarse)) in
  fst (compatibleDatasetProjectionsTransformAndSizes 1 2 w) = true <->
  forall i, (i < 6)%nat ->
    d_eq (gt_at north_up i) (gt_at north_up_coarse i) = true.
Proof.
  intros w.
  refine (proj1 (proj2 (proj2
    (fully_compatible_by_transform_count 1 2 w
       (snd (compatibleDatasetProjections 1 2 w))
       _ _ CE_None CE_None north_up north_up_coarse
       eq_refl eq_refl eq_refl eq_refl eq_refl))
    (conj eq_refl eq_refl))).
Defined.

Lemma compatibility_reflexive_witness :
  let w := two_datasets (tile [wkt_4326] (CE_None, north_up))
                        (tile [wkt_3857] unreadable) in
  fst (compatibleDatasetProjections 1 1 w) = true /\
  fst (compatibleDatasetProjectionsTransformAndSizes 1 1 w) = true.
Proof.
  intros w.
  apply (compatibility_reflexive 1 w north_up).
  - split; reflexivity.
  - reflexivity.
Defined.

(** * Properties of the typed buffer factory *)

(** ** The numeric default policy *)

Lemma numeric_limits_min_least (T : CType) :
  is_integer T = true ->
  exists lo, numeric_limits_min T = SInt lo /\ is_min_of T lo.
Proof.
  intros HT. destruct T; try discriminate; eexists; (split; [reflexivity |]);
    unfold is_min_of, representable; simpl; split; try lia; intros z'; lia.
Qed.

Lemma numeric_limits_max_greatest (T : CType) :
  is_integer T = true ->
  exists hi, numeric_limits_max T = SInt hi /\ is_max_of T hi.
Proof.
  intros HT. destruct T; try discriminate; eexists; (split; [reflexivity |]);
    unfold is_max_of, representable; simpl; split; try lia; intros z'; lia.
Qed.

(** [scale < 0.0] and [scale > 0.0] exclude each other. *)
Lemma d_gt_zero_not_lt (scale : double) :
  d_gt scale d_zero = true -> d_lt scale d_zero = false.
Proof.
  unfold d_gt, d_lt, SFltb, SFcompare, d_zero.
  destruct scale as [s | s | | s m e]; try discriminate; destruct s;
    try discriminate; reflexivity.
Qed.

Lemma d_eq_zero_neither (scale : double) :
  d_eq scale d_zero = true ->
  d_lt scale d_zero = false /\ d_gt scale d_zero = false.
Proof.
  unfold d_eq, d_gt, d_lt, SFeqb, SFltb, SFcompare, d_zero.
  destruct scale as [s | s | | s m e]; try discriminate; try destruct s;
    try discriminate; split; reflexivity.
Qed.

(** C3. The numeric default policy.  For an integer target type [T],
    [default_value T scale] is the least value [T] can hold when
    [scale < 0], the greatest value [T] can hold when [scale > 0], and
    zero when [scale == 0]; only the sign of [scale] is looked at: two
    scales with the same answers to [< 0] and [> 0] give the same value.
    For a floating target type it is the conversion of [scale] to [T]. *)
Theorem default_value_policy (T : CType) (scale : double) :
  (is_integer T = true ->
     (d_lt scale d_zero = true ->
        default_value T scale = numeric_limits_min T /\
        exists lo, default_value T scale = SInt lo /\ is_min_of T lo) /\
     (d_gt scale d_zero = true ->
        default_value T scale = numeric_limits_max T /\
        exists hi, default_value T scale = SInt hi /\ is_max_of T hi) /\
     (d_eq scale d_zero = true -> default_value T scale = SInt 0) /\
     (forall scale',
        d_lt scale' d_zero = d_lt scale d_zero ->
        d_gt scale' d_zero = d_gt scale d_zero ->
        default_value T scale' = default_value T scale)) /\
  (is_integer T = false ->
     default_value T scale = static_cast_double T scale /\
     default_value float_t scale = SFloat (double_to_float scale) /\
     default_value double_t scale = SFloat scale).
Proof.
  split.
  - intros HT. unfold default_value. rewrite HT. split; [| split; [| split]].
    + intros Hlt. rewrite Hlt. split; [reflexivity |].
      apply numeric_limits_min_least. exact HT.
    + intros Hgt. rewrite (d_gt_zero_not_lt scale Hgt), Hgt.
      split; [reflexivity |].
      apply numeric_limits_max_greatest. exact HT.
    + intros Hz. destruct (d_eq_zero_neither scale Hz) as [-> ->].
      unfold static_cast_int. rewrite HT. reflexivity.
    + intros scale' -> ->. reflexivity.
  - intros HT. unfold default_value. rewrite HT.
    repeat split; reflexivity.
Qed.

Lemma default_value_policy_witness :
  default_value int16_t d_minus_one = SInt (-32768) /\
  default_value uint8_t d_2_5 = SInt 255 /\
  default_value int32_t d_zero = SInt 0 /\
  default_value float_t d_2_5 = SFloat f_2_5.
Proof.
  split; [| split; [| split]].
  - exact (proj1 (proj1 (proj1 (default_value_policy int16_t d_minus_one)
                           eq_refl) eq_refl)).
  - exact (proj1 (proj1 (proj2 (proj1 (default_value_policy uint8_t d_2_5)
                                  eq_refl)) eq_refl)).
  - exact (proj1 (proj2 (proj2 (proj1 (default_value_policy int32_t d_zero)
                                  eq_refl))) eq_refl).
  - exact (proj1 (proj2 (proj2 (default_value_policy float_t d_2_5) eq_refl))).
Defined.

(** ** The dispatch table *)

Lemma map_find_None (m : std_map) (k : TypeCompontents) :
  map_find m k = None <-> forall k', In k' (keys m) -> key_eqb k' k = false.
Proof.
  induction m as [| [k0 f0] rest IH]; simpl.
  - split; [intros _ k' [] | reflexivity].
  - destruct (key_eqb k0 k) eqn:E.
    + split; [discriminate |].
      intros Hall. rewrite (Hall k0 (or_introl eq_refl)) in E. discriminate.
    + rewrite IH. split.
      * intros Hrest k' [<- | Hin]; [exact E | exact (Hrest k' Hin)].
      * intros Hall k' Hin. apply Hall. right. exact Hin.
Qed.

(** The 28 keys of the table, in insertion order. *)
Lemma createMap_keys :
  keys createMap =
  [(GDT_Byte, 1); (GDT_UInt16, 1); (GDT_Int16, 1); (GDT_UInt32, 1);
   (GDT_Int32, 1); (GDT_Float32, 1); (GDT_Float64, 1);
   (GDT_Byte, 2); (GDT_UInt16, 2); (GDT_Int16, 2); (GDT_UInt32, 2);
   (GDT_Int32, 2); (GDT_Float32, 2); (GDT_Float64, 2);
   (GDT_Byte, 3); (GDT_UInt16, 3); (GDT_Int16, 3); (GDT_UInt32, 3);
   (GDT_Int32, 3); (GDT_Float32, 3); (GDT_Float64, 3);
   (GDT_Byte, 4); (GDT_UInt16, 4); (GDT_Int16, 4); (GDT_UInt32, 4);
   (GDT_Int32, 4); (GDT_Float32, 4); (GDT_Float64, 4)].
Proof. reflexivity. Qed.

(** The entry of a supported encoding and channel count: the array class
    of that scalar type and channel count, the fill value of that many
    channels, and a tag of that many channels and that bit width. *)
Lemma createMap_entry (dt : GDALDataType) (n : Z) (T : CType) :
  encoding_type dt = Some T -> 1 <= n <= 4 ->
  exists (create : CreateFunction) (format : VkFormat),
    map_find createMap (dt, n) = Some create /\
    format_info format = mk_fi n (bit_width T) (documented_kind T) /\
    forall w h d,
      create w h d = Array2D_create (mk_vt T n) w h (table_fill T n d) format.
Proof.
  intros HT Hn.
  assert (n = 1 \/ n = 2 \/ n = 3 \/ n = 4) as [-> | [-> | [-> | ->]]] by lia;
    destruct dt; try discriminate; injection HT as <-;
    eexists; eexists; (split; [reflexivity |]);
    (split; [| intros w h d; reflexivity]); reflexivity.
Qed.

(** Exactly the pairs of a supported encoding with 1 to 4 channels have an
    entry. *)
Lemma createMap_find_None (dt : GDALDataType) (n : Z) :
  map_find createMap (dt, n) = None <->
  encoding_type dt = None \/ n < 1 \/ 4 < n.
Proof.
  split.
  - intros Hnone. destruct (encoding_type dt) as [T |] eqn:E;
      [| left; reflexivity].
    right. destruct (Z_lt_dec n 1) as [| H1]; [left; assumption |].
    destruct (Z_lt_dec 4 n) as [| H4]; [right; assumption |].
    exfalso. assert (Hn : 1 <= n <= 4) by lia.
    destruct (createMap_entry dt n T E Hn) as (create & format & Hfind & _).
    congruence.
  - intros Hout. apply map_find_None. rewrite createMap_keys.
    intros k' Hin. unfold key_eqb. apply andb_false_iff.
    destruct Hout as [E | Hn].
    + left. simpl in Hin.
      repeat (destruct Hin as [<- | Hin];
              [destruct dt; try discriminate E; reflexivity |]).
      destruct Hin.
    + right. simpl in Hin.
      repeat (destruct Hin as [<- | Hin]; [apply Z.eqb_neq; simpl; lia |]).
      destruct Hin.
Qed.

Lemma Array2D_create_counts (vt : ValueType) (w h : Z) (value : list channel)
    (format : VkFormat) :
  0 <= w -> 0 <= h ->
  let buffer := Array2D_create vt w h value format in
  valueCount buffer = w * h /\
  scalarCount buffer = w * h * Z.of_nat (List.length value).
Proof.
  intros Hw Hh buffer. unfold valueCount, scalarCount. simpl.
  assert (Hwh : 0 <= w * h) by lia. split.
  - rewrite repeat_length. apply Z2Nat.id. exact Hwh.
  - replace (List.length (List.concat (repeat value (Z.to_nat (w * h)))))
      with (Z.to_nat (w * h) * List.length value)%nat.
    + rewrite Nat2Z.inj_mul, Z2Nat.id by exact Hwh. reflexivity.
    + induction (Z.to_nat (w * h)) as [| k IH]; simpl; [reflexivity |].
      rewrite length_app, <- IH. reflexivity.
Qed.

Lemma table_fill_length (T : CType) (n : Z) (d : dvec4) :
  1 <= n <= 4 -> Z.of_nat (List.length (table_fill T n d)) = n.
Proof.
  intros Hn.
  assert (n = 1 \/ n = 2 \/ n = 3 \/ n = 4) as [-> | [-> | [-> | ->]]] by lia;
    reflexivity.
Qed.

Lemma to_uint32_nonneg_int (z : Z) : 0 <= z < 2 ^ 31 -> to_uint32 z = z.
Proof. intros Hz. unfold to_uint32. apply Z.mod_small. lia. Qed.

Lemma to_uint32_range (z : Z) : 0 <= to_uint32 z < 2 ^ 32.
Proof. unfold to_uint32. apply Z.mod_pos_bound. lia. Qed.

(** ** The factory *)

(** A tag is determined by what it says. *)
Lemma format_info_inj (f g : VkFormat) : format_info f = format_info g -> f = g.
Proof. destruct f, g; intros E; try reflexivity; discriminate E. Qed.

Lemma createImage2D_supported (width height n : Z) (dt : GDALDataType)
    (def : dvec4) (T : CType) :
  encoding_type dt = Some T -> 1 <= n <= 4 ->
  exists format : VkFormat,
    format_info format = mk_fi n (bit_width T) (documented_kind T) /\
    createImage2D width height n dt def =
      Some (Array2D_create (mk_vt T n) (to_uint32 width) (to_uint32 height)
              (table_fill T n def) format).
Proof.
  intros HT Hn.
  destruct (createMap_entry dt n T HT Hn) as (create & format & Hfind & Hfmt & Hcreate).
  exists format. split; [exact Hfmt |].
  unfold createImage2D. rewrite Hfind, Hcreate. reflexivity.
Qed.

Lemma createImage2D_unsupported (width height n : Z) (dt : GDALDataType)
    (def : dvec4) :
  encoding_type dt = None \/ n < 1 \/ 4 < n ->
  createImage2D width height n dt def = None.
Proof.
  intros Hout. unfold createImage2D.
  rewrite (proj2 (createMap_find_None dt n) Hout). reflexivity.
Qed.

Lemma documented_format_supported (dt : GDALDataType) (n : Z) (T : CType) :
  encoding_type dt = Some T -> 1 <= n <= 4 ->
  documented_format dt n = Some (mk_fi n (bit_width T) (documented_kind T)).
Proof.
  intros HT Hn. unfold documented_format. rewrite HT.
  destruct (Z.leb_spec 1 n); [| lia]. destruct (Z.leb_spec n 4); [| lia].
  reflexivity.
Qed.

(** C2. The fourth channel of a 4-channel fill value.  [default_vec4]
    indexes the default vector at 4; the components of the vector are at
    the indices 0 to 3, so this read is out of range, for every type and
    every default vector.  The fourth channel is therefore not derived
    from component 3 (changing component 3 leaves the fill value as it
    is), and every call of the factory with four channels on a supported
    encoding fills its buffer with such a value. *)
Theorem fourth_channel_read_out_of_range (T : CType) (value : dvec4) :
  (forall i, vec4_at value i <> None <-> 0 <= i <= 3) /\
  vec4_at value 4 = None /\
  default_vec4 T value =
    [Some (default_value T (vx value)); Some (default_value T (vy value));
     Some (default_value T (vz value)); None] /\
  (forall w3,
     default_vec4 T (mk_dvec4 (vx value) (vy value) (vz value) w3) =
     default_vec4 T value) /\
  (forall width height dt,
     match encoding_type dt, createImage2D width height 4 dt value with
     | Some T', Some buffer =>
         elements buffer =
           repeat (default_vec4 T' value)
                  (Z.to_nat (to_uint32 width * to_uint32 height))
     | None, None => True
     | _, _ => False
     end).
Proof.
  split; [| split; [| split; [| split]]].
  - intros i. unfold vec4_at.
    destruct (Z.eqb_spec i 0); [split; [lia | discriminate] |].
    destruct (Z.eqb_spec i 1); [split; [lia | discriminate] |].
    destruct (Z.eqb_spec i 2); [split; [lia | discriminate] |].
    destruct (Z.eqb_spec i 3); [split; [lia | discriminate] |].
    split; [intros Habs; contradiction Habs; reflexivity | lia].
  - reflexivity.
  - reflexivity.
  - intros w3. reflexivity.
  - intros width height dt. destruct (encoding_type dt) as [T' |] eqn:E.
    + destruct (createImage2D_supported width height 4 dt value T' E)
        as (format & _ & ->); [lia |].
      reflexivity.
    + rewrite createImage2D_unsupported by (left; exact E). exact I.
Qed.

(** C4. Dispatch completeness.  For each of the seven supported
    encodings, each channel count from 1 to 4, all non-negative [int]
    widths and heights and every default vector, [createImage2D] returns
    a buffer: its elements have the scalar type the encoding names and
    the requested number of channels, it holds width * height elements,
    that is width * height * channelCount scalars, and its format tag is
    the documented one for the pair (that many channels, the bit width of
    the scalar type, the numeric interpretation documented for it). *)
Theorem dispatch_complete (width height channelCount : Z)
    (encoding : GDALDataType) (T : CType) (defaultValue : dvec4) :
  encoding_type encoding = Some T ->
  1 <= channelCount <= 4 ->
  0 <= width < 2 ^ 31 ->
  0 <= height < 2 ^ 31 ->
  exists buffer : Data,
    createImage2D width height channelCount encoding defaultValue = Some buffer /\
    value_type buffer = mk_vt T channelCount /\
    valueCount buffer = width * height /\
    scalarCount buffer = width * height * channelCount /\
    (forall e, In e (elements buffer) -> Z.of_nat (List.length e) = channelCount) /\
    Some (format_info (layout buffer)) = documented_format encoding channelCount.
Proof.
  intros HT Hn Hw Hh.
  destruct (createImage2D_supported width height channelCount encoding
              defaultValue T HT Hn) as (format & Hfmt & Hcreate).
  rewrite !to_uint32_nonneg_int in Hcreate by assumption.
  eexists. split; [exact Hcreate |].
  destruct (Array2D_create_counts (mk_vt T channelCount) width height
              (table_fill T channelCount defaultValue) format)
    as [Hvalues Hscalars]; [lia | lia |].
  rewrite table_fill_length in Hscalars by exact Hn.
  split; [reflexivity |]. split; [exact Hvalues |]. split; [exact Hscalars |].
  split.
  - intros e He. simpl in He. apply repeat_spec in He. subst e.
    apply table_fill_length. exact Hn.
  - simpl. rewrite Hfmt. symmetry.
    apply documented_format_supported; assumption.
Qed.

Lemma dispatch_complete_witness :
  exists buffer : Data,
    createImage2D 512 512 3 GDT_Byte (mk_dvec4 d_zero d_zero d_zero d_zero)
      = Some buffer /\
    value_type buffer = mk_vt uint8_t 3 /\
    valueCount buffer = 512 * 512 /\
    scalarCount buffer = 512 * 512 * 3 /\
    (forall e, In e (elements buffer) -> Z.of_nat (List.length e) = 3) /\
    Some (format_info (layout buffer)) = documented_format GDT_Byte 3.
Proof.
  apply (dispatch_complete 512 512 3 GDT_Byte uint8_t).
  - reflexivity.
  - lia.
  - lia.
  - lia.
Defined.

(** C8. Unsupported combinations.  A pair (encoding, channel count) has
    no entry in the dispatch table exactly when the encoding is not one
    of the seven supported ones or the channel count is not between 1 and
    4; [createImage2D] returns the empty result exactly for these pairs,
    and it has no other outcome than the empty result or a buffer; every
    buffer it returns is complete: the element type, the dimensions, the
    elements (all equal to the fill value) and the tag are those of the
    table entry. *)
Theorem unsupported_combination_is_the_only_failure
    (width height numComponents : Z) (dataType : GDALDataType) (def : dvec4) :
  (map_find createMap (dataType, numComponents) = None <->
   encoding_type dataType = None \/ numComponents < 1 \/ 4 < numComponents) /\
  (createImage2D width height numComponents dataType def = None <->
   map_find createMap (dataType, numComponents) = None) /\
  match createImage2D width height numComponents dataType def with
  | None => map_find createMap (dataType, numComponents) = None
  | Some buffer =>
      exists T,
        encoding_type dataType = Some T /\
        1 <= numComponents <= 4 /\
        value_type buffer = mk_vt T numComponents /\
        a_width buffer = to_uint32 width /\
        a_height buffer = to_uint32 height /\
        elements buffer =
          repeat (table_fill T numComponents def)
                 (Z.to_nat (to_uint32 width * to_uint32 height)) /\
        valueCount buffer = to_uint32 width * to_uint32 height /\
        Some (format_info (layout buffer)) =
          documented_format dataType numComponents
  end.
Proof.
  split; [apply createMap_find_None |]. split.
  - unfold createImage2D.
    destruct (map_find createMap (dataType, numComponents));
      split; intros E; try discriminate; reflexivity.
  - destruct (encoding_type dataType) as [T |] eqn:E.
    + destruct (Z_lt_dec numComponents 1) as [Hlo | Hlo].
      { rewrite createImage2D_unsupported by (right; left; exact Hlo).
        apply createMap_find_None. right. left. exact Hlo. }
      destruct (Z_lt_dec 4 numComponents) as [Hhi | Hhi].
      { rewrite createImage2D_unsupported by (right; right; exact Hhi).
        apply createMap_find_None. right. right. exact Hhi. }
      assert (Hn : 1 <= numComponents <= 4) by lia.
      destruct (createImage2D_supported width height numComponents dataType
                  def T E Hn) as (format & Hfmt & ->).
      exists T. split; [reflexivity |]. split; [exact Hn |].
      split; [reflexivity |]. split; [reflexivity |]. split; [reflexivity |].
      split; [reflexivity |]. split.
      * pose proof (to_uint32_range width). pose proof (to_uint32_range height).
        apply Array2D_create_counts; lia.
      * simpl. rewrite Hfmt. symmetry.
        apply documented_format_supported; [exact E | exact Hn].
    + rewrite createImage2D_unsupported by (left; exact E).
      apply createMap_find_None. left. exact E.
Qed.

(** * Further properties of the compatibility checker *)

Lemma string_compare_refl (s : string) : String.compare s s = Eq.
Proof.
  pose proof (String.compare_antisym s s) as E.
  destruct (String.compare s s); [reflexivity | discriminate E | discriminate E].
Qed.

Lemma strcmp_zero_iff (p q : c_string) :
  (strcmp p q =? 0) = true <-> cs_bytes p = cs_bytes q.
Proof.
  unfold strcmp. split.
  - destruct (String.compare (cs_bytes p) (cs_bytes q)) eqn:E;
      [intros _; apply String.compare_eq_iff; exact E | discriminate | discriminate].
  - intros ->. rewrite string_compare_refl. reflexivity.
Qed.

Lemma d_eq_zeros (x y : double) :
  is_zero x = true -> is_zero y = true -> d_eq x y = true.
Proof. destruct x, y; try discriminate; reflexivity. Qed.

Lemma d_eq_not_nan (x y : double) :
  d_eq x y = true -> is_nan x = false /\ is_nan y = false.
Proof.
  unfold d_eq, SFeqb, SFcompare.
  destruct x as [sx | sx | | sx mx ex], y as [sy | sy | | sy my ey];
    try discriminate; try (destruct sx; discriminate); split; reflexivity.
Qed.

Lemma d_eq_sym (x y : double) : d_eq x y = d_eq y x.
Proof.
  destruct (d_eq x y) eqn:Exy; destruct (d_eq y x) eqn:Eyx; try reflexivity.
  - destruct (d_eq_exact x y Exy) as [-> | [Hx Hy]]; [congruence |].
    rewrite (d_eq_zeros y x Hy Hx) in Eyx. discriminate.
  - destruct (d_eq_exact y x Eyx) as [-> | [Hy Hx]]; [congruence |].
    rewrite (d_eq_zeros x y Hx Hy) in Exy. discriminate.
Qed.

Lemma d_eq_trans (x y z : double) :
  d_eq x y = true -> d_eq y z = true -> d_eq x z = true.
Proof.
  intros Exy Eyz.
  destruct (d_eq_exact x y Exy) as [-> | [Hx Hy]]; [exact Eyz |].
  destruct (d_eq_exact y z Eyz) as [<- | [_ Hz]]; [exact Exy |].
  apply d_eq_zeros; assumption.
Qed.

Lemma transformsEqual_sym (idx : list nat) (l r : GeoTransform) :
  transformsEqual idx l r = transformsEqual idx r l.
Proof.
  induction idx as [| i rest IH]; simpl; [reflexivity |].
  unfold d_ne. fold (d_eq (gt_at l i) (gt_at r i)).
  fold (d_eq (gt_at r i) (gt_at l i)).
  rewrite (d_eq_sym (gt_at l i) (gt_at r i)), IH. reflexivity.
Qed.

Lemma transformsEqual_trans (idx : list nat) (a b c : GeoTransform) :
  transformsEqual idx a b = true -> transformsEqual idx b c = true ->
  transformsEqual idx a c = true.
Proof.
  rewrite !transformsEqual_spec. intros Hab Hbc i Hi.
  exact (d_eq_trans _ _ _ (Hab i Hi) (Hbc i Hi)).
Qed.

(** X9. Transform equality, component by component: lines 72-79 accept two
    transforms exactly when, at each of the six indices, neither
    component is a NaN and the two components are the same number or are
    both zeros (of any sign). *)
Theorem transformsEqual_components (l r : GeoTransform) :
  transformsEqual (seq 0 6) l r = true <->
  forall i, (i < 6)%nat ->
    is_nan (gt_at l i) = false /\ is_nan (gt_at r i) = false /\
    (gt_at l i = gt_at r i \/
     (is_zero (gt_at l i) = true /\ is_zero (gt_at r i) = true)).
Proof.
  rewrite transformsEqual_spec. split.
  - intros Hall i Hi.
    assert (E : d_eq (gt_at l i) (gt_at r i) = true).
    { apply Hall. apply in_seq. split; [apply Nat.le_0_l | exact Hi]. }
    destruct (d_eq_not_nan _ _ E) as [Hl Hr].
    split; [exact Hl |]. split; [exact Hr |]. apply d_eq_exact. exact E.
  - intros Hall i Hi. apply in_seq in Hi.
    destruct (Hall i (proj2 Hi)) as (Hl & Hr & [E | [Zl Zr]]).
    + rewrite E. apply d_eq_refl_not_nan. exact Hr.
    + apply d_eq_zeros; assumption.
Qed.

Section CheckerMoreFacts.

Context {D : Type} `{GDALDataset D}.

Lemma call_other {A} (method : D -> A * D) (h k : handle) (w : Store) :
  k <> h -> snd (call method h w) k = w k.
Proof. intros Hk. rewrite call_eq. cbn [snd]. apply upd_other. exact Hk. Qed.

Lemma rasterSizesDiffer_store (lhs rhs : handle) (w : Store) :
  snd (rasterSizesDiffer lhs rhs w) = w.
Proof.
  unfold rasterSizesDiffer, bind, read, ret. cbn beta iota.
  destruct (negb (GetRasterXSize (w lhs) =? GetRasterXSize (w rhs)));
    reflexivity.
Qed.

Lemma rasterSizesDiffer_value (lhs rhs : handle) (w : Store) :
  fst (rasterSizesDiffer lhs rhs w) =
  negb ((GetRasterXSize (w lhs) =? GetRasterXSize (w rhs)) &&
        (GetRasterYSize (w lhs) =? GetRasterYSize (w rhs))).
Proof.
  unfold rasterSizesDiffer, bind, read, ret. cbn beta iota.
  destruct (GetRasterXSize (w lhs) =? GetRasterXSize (w rhs)); reflexivity.
Qed.

Lemma compatibleDatasetProjections_other (lhs rhs h : handle) (w : Store) :
  h <> lhs -> snd (compatibleDatasetProjections lhs rhs w) h = w h.
Proof.
  intros Hh. unfold compatibleDatasetProjections.
  destruct (lhs =? rhs); [reflexivity |].
  unfold bind. rewrite call_eq. rewrite call_eq. cbn beta iota.
  set (p1 := fst (GetProjectionRef (w lhs))).
  set (w1 := upd w lhs (snd (GetProjectionRef (w lhs)))).
  set (p2 := fst (GetProjectionRef (w1 lhs))).
  assert (Hw : upd w1 lhs (snd (GetProjectionRef (w1 lhs))) h = w h).
  { rewrite upd_other by exact Hh. unfold w1. apply upd_other. exact Hh. }
  destruct (ptr_eq p1 p2); [exact Hw |].
  destruct p1, p2; exact Hw.
Qed.

(** X1. The projection check touches the left dataset only: every other
    object of the store, the right dataset included when it is another
    object, is the same afterwards; on one and the same object the check
    changes nothing at all. *)
Theorem projections_check_frame (lhs rhs : handle) (w : Store) :
  (forall h, h <> lhs -> snd (compatibleDatasetProjections lhs rhs w) h = w h) /\
  (lhs = rhs -> snd (compatibleDatasetProjections lhs rhs w) = w).
Proof.
  split.
  - intros h Hh. apply compatibleDatasetProjections_other. exact Hh.
  - intros <-. rewrite compatibleDatasetProjections_same. reflexivity.
Qed.

(** X2. The decision table of the projection check on two distinct objects,
    in terms of the two consecutive answers [p1] and [p2] of
    [GetProjectionRef] on the left dataset: the check accepts exactly when
    both answers are null, or both are non-null and point to the same
    address or to equal byte strings. *)
Theorem projections_check_decision (lhs rhs : handle) (w : Store) :
  lhs <> rhs ->
  let p1 := fst (GetProjectionRef (w lhs)) in
  let p2 := fst (GetProjectionRef (snd (GetProjectionRef (w lhs)))) in
  fst (compatibleDatasetProjections lhs rhs w) = true <->
  (p1 = None /\ p2 = None) \/
  (exists l r, p1 = Some l /\ p2 = Some r /\
               (cs_addr l = cs_addr r \/ cs_bytes l = cs_bytes r)).
Proof.
  intros Hne p1 p2.
  rewrite compatibleDatasetProjections_distinct by exact Hne.
  cbn zeta. fold p1 p2.
  destruct p1 as [l |], p2 as [r |]; simpl.
  - destruct (Z.eqb_spec (cs_addr l) (cs_addr r)) as [Ea | Ea].
    + split; [| reflexivity]. intros _. right. exists l, r. auto.
    + rewrite strcmp_zero_iff. split.
      * intros Eb. right. exists l, r. auto.
      * intros [[Habs _] | (l' & r' & El & Er & [Ha | Hb])];
          [discriminate Habs | |];
          injection El as <-; injection Er as <-; [contradiction | exact Hb].
  - split; [discriminate |].
    intros [[Habs _] | (l' & r' & _ & Habs & _)]; discriminate Habs.
  - split; [discriminate |].
    intros [[_ Habs] | (l' & r' & Habs & _)]; discriminate Habs.
  - split; [| reflexivity]. intros _. left. split; reflexivity.
Qed.

(** X3. Size mismatch: when the projection check has passed and the raster
    widths or the raster heights differ, the full check answers false and
    stops there: the store is the one the projection check left, no
    transform has been read. *)
Theorem size_mismatch_rejects (lhs rhs : handle) (w w1 : Store) :
  compatibleDatasetProjections lhs rhs w = (true, w1) ->
  GetRasterXSize (w1 lhs) <> GetRasterXSize (w1 rhs) \/
  GetRasterYSize (w1 lhs) <> GetRasterYSize (w1 rhs) ->
  compatibleDatasetProjectionsTransformAndSizes lhs rhs w = (false, w1).
Proof.
  intros Hpc Hsz.
  unfold compatibleDatasetProjectionsTransformAndSizes, bind.
  rewrite Hpc. cbn [negb].
  pose proof (rasterSizesDiffer_store lhs rhs w1) as Hst.
  pose proof (rasterSizesDiffer_value lhs rhs w1) as Hval.
  destruct (rasterSizesDiffer lhs rhs w1) as [differ w2].
  cbn [fst snd] in Hst, Hval. subst w2.
  assert (Hd : differ = true).
  { rewrite Hval. apply negb_true_iff. apply andb_false_iff.
    destruct Hsz as [HX | HY]; [left | right]; apply Z.eqb_neq; assumption. }
  rewrite Hd. reflexivity.
Qed.

(** X4. The full check touches the two datasets it is given and nothing
    else. *)
Theorem full_check_frame (lhs rhs h : handle) (w : Store) :
  h <> lhs -> h <> rhs ->
  snd (compatibleDatasetProjectionsTransformAndSizes lhs rhs w) h = w h.
Proof.
  intros Hl Hr.
  unfold compatibleDatasetProjectionsTransformAndSizes, bind.
  pose proof (compatibleDatasetProjections_other lhs rhs h w Hl) as Hpc.
  destruct (compatibleDatasetProjections lhs rhs w) as [ok w1].
  cbn [snd] in Hpc. destruct ok; cbn [negb]; [| exact Hpc].
  pose proof (rasterSizesDiffer_store lhs rhs w1) as Hst.
  destruct (rasterSizesDiffer lhs rhs w1) as [differ w2].
  cbn [snd] in Hst. subst w2. destruct differ; [exact Hpc |].
  pose proof (call_other GetGeoTransform lhs h w1 Hl) as H1.
  destruct (call GetGeoTransform lhs w1) as [l w2]. cbn [snd] in H1.
  pose proof (call_other GetGeoTransform rhs h w2 Hr) as H2.
  destruct (call GetGeoTransform rhs w2) as [r w3]. cbn [snd] in H2.
  assert (Hw : w3 h = w h) by congruence.
  cbn zeta.
  destruct (0 + valid (fst l) + valid (fst r) =? 0); [exact Hw |].
  destruct (0 + valid (fst l) + valid (fst r) =? 1); exact Hw.
Qed.

End CheckerMoreFacts.

Lemma ptr_eq_refl (p : const_char_ptr) : ptr_eq p p = true.
Proof. destruct p; simpl; [apply Z.eqb_refl | reflexivity]. Qed.

Lemma transformsAgree_sym (l r : CPLErr * GeoTransform) :
  transformsAgree l r = transformsAgree r l.
Proof.
  unfold transformsAgree. cbn zeta.
  rewrite (Z.add_comm (valid (fst r)) (valid (fst l))).
  rewrite (transformsEqual_sym (seq 0 6) (snd r) (snd l)). reflexivity.
Qed.

Lemma transformsAgree_trans (a b c : CPLErr * GeoTransform) :
  transformsAgree a b = true -> transformsAgree b c = true ->
  transformsAgree a c = true.
Proof.
  unfold transformsAgree, valid. cbn zeta.
  generalize (transformsEqual_trans (seq 0 6) (snd a) (snd b) (snd c)).
  generalize (transformsEqual (seq 0 6) (snd a) (snd b)),
    (transformsEqual (seq 0 6) (snd b) (snd c)),
    (transformsEqual (seq 0 6) (snd a) (snd c)).
  intros ab bc ac Htrans.
  destruct (CPLErr_eqb (fst a) CE_None), (CPLErr_eqb (fst b) CE_None),
    (CPLErr_eqb (fst c) CE_None); simpl; try discriminate; try reflexivity.
  exact Htrans.
Qed.

Section QuiescentDatasets.

Context {D : Type} `{GDALDataset D}.

Lemma sameGrid_sym (l r : D) : sameGrid l r = sameGrid r l.
Proof.
  unfold sameGrid.
  rewrite (Z.eqb_sym (GetRasterXSize l)), (Z.eqb_sym (GetRasterYSize l)).
  rewrite transformsAgree_sym. reflexivity.
Qed.

Lemma sameGrid_trans (a b c : D) :
  sameGrid a b = true -> sameGrid b c = true -> sameGrid a c = true.
Proof.
  unfold sameGrid. rewrite !andb_true_iff, !Z.eqb_eq.
  intros [[Xab Yab] Tab] [[Xbc Ybc] Tbc].
  repeat split; try congruence.
  exact (transformsAgree_trans _ _ _ Tab Tbc).
Qed.

Lemma quiescent_stable (d : D) : quiescent d -> stable_projectionRef d.
Proof.
  intros [HP _]. unfold stable_projectionRef. rewrite HP. apply ptr_eq_refl.
Qed.

(** Reads of a quiescent left dataset leave every object as it was. *)
Lemma compatibleDatasetProjections_quiescent (lhs rhs : handle) (w : Store) :
  quiescent (w lhs) ->
  forall k, snd (compatibleDatasetProjections lhs rhs w) k = w k.
Proof.
  intros [HP _] k.
  destruct (Z.eq_dec k lhs) as [-> | Hk];
    [| apply compatibleDatasetProjections_other; exact Hk].
  unfold compatibleDatasetProjections.
  destruct (lhs =? rhs); [reflexivity |].
  unfold bind. rewrite call_eq. rewrite call_eq. cbn beta iota.
  set (p1 := fst (GetProjectionRef (w lhs))).
  set (w1 := upd w lhs (snd (GetProjectionRef (w lhs)))).
  set (p2 := fst (GetProjectionRef (w1 lhs))).
  assert (Hw : upd w1 lhs (snd (GetProjectionRef (w1 lhs))) lhs = w lhs).
  { rewrite upd_same. unfold w1. rewrite upd_same, HP. exact HP. }
  destruct (ptr_eq p1 p2); [exact Hw |].
  destruct p1, p2; exact Hw.
Qed.

(** The run of the full check on two quiescent datasets. *)
Lemma full_check_quiescent_run (lhs rhs : handle) (w : Store) :
  quiescent (w lhs) -> quiescent (w rhs) ->
  fst (compatibleDatasetProjectionsTransformAndSizes lhs rhs w) =
    sameGrid (w lhs) (w rhs) /\
  forall k, snd (compatibleDatasetProjectionsTransformAndSizes lhs rhs w) k = w k.
Proof.
  intros Ql Qr.
  pose proof (compatibleDatasetProjections_stable lhs rhs w
                (quiescent_stable _ Ql)) as Hok.
  pose proof (compatibleDatasetProjections_quiescent lhs rhs w Ql) as Hw1.
  unfold compatibleDatasetProjectionsTransformAndSizes, bind.
  destruct (compatibleDatasetProjections lhs rhs w) as [ok w1].
  cbn [fst snd] in Hok, Hw1. subst ok. cbn [negb].
  pose proof (rasterSizesDiffer_store lhs rhs w1) as Hst.
  pose proof (rasterSizesDiffer_value lhs rhs w1) as Hval.
  destruct (rasterSizesDiffer lhs rhs w1) as [differ w2].
  cbn [fst snd] in Hst, Hval. subst w2. rewrite !Hw1 in Hval.
  unfold sameGrid.
  destruct ((GetRasterXSize (w lhs) =? GetRasterXSize (w rhs)) &&
            (GetRasterYSize (w lhs) =? GetRasterYSize (w rhs)));
    cbn [negb] in Hval; subst differ; [| split; [reflexivity | exact Hw1]].
  destruct Ql as [_ Gl]. destruct Qr as [_ Gr].
  rewrite call_eq. cbn beta iota. rewrite Hw1, Gl.
  set (w2 := upd w1 lhs (w lhs)).
  assert (Hw2 : forall k, w2 k = w k).
  { intros k. unfold w2, upd. destruct (Z.eqb_spec k lhs) as [-> | _];
      [reflexivity | apply Hw1]. }
  rewrite call_eq. cbn beta iota. rewrite Hw2, Gr.
  set (w3 := upd w2 rhs (w rhs)).
  assert (Hw3 : forall k, w3 k = w k).
  { intros k. unfold w3, upd. destruct (Z.eqb_spec k rhs) as [-> | _];
      [reflexivity | apply Hw2]. }
  cbn [fst snd andb]. unfold transformsAgree. cbn zeta.
  rewrite Z.add_0_l.
  destruct (valid (fst (fst (GetGeoTransform (w lhs)))) +
            valid (fst (fst (GetGeoTransform (w rhs)))) =? 0);
    [split; [reflexivity | exact Hw3] |].
  destruct (valid (fst (fst (GetGeoTransform (w lhs)))) +
            valid (fst (fst (GetGeoTransform (w rhs)))) =? 1);
    split; try reflexivity; exact Hw3.
Qed.

(** X5. On two datasets whose getters only read, the full check computes
    [sameGrid]: equal widths, equal heights, and transforms that are both
    unreadable or both readable and equal; the projection references play
    no part in the answer, and the store is left as it was. *)
Theorem full_check_on_quiescent_datasets (lhs rhs : handle) (w : Store) :
  quiescent (w lhs) -> quiescent (w rhs) ->
  fst (compatibleDatasetProjectionsTransformAndSizes lhs rhs w) =
    sameGrid (w lhs) (w rhs) /\
  forall k, snd (compatibleDatasetProjectionsTransformAndSizes lhs rhs w) k = w k.
Proof. intros Ql Qr. exact (full_check_quiescent_run lhs rhs w Ql Qr). Qed.

(** X6. On quiescent datasets the full check is symmetric. *)
Theorem full_check_symmetric (a b : handle) (w : Store) :
  quiescent (w a) -> quiescent (w b) ->
  fst (compatibleDatasetProjectionsTransformAndSizes a b w) =
  fst (compatibleDatasetProjectionsTransformAndSizes b a w).
Proof.
  intros Qa Qb.
  rewrite (proj1 (full_check_quiescent_run a b w Qa Qb)).
  rewrite (proj1 (full_check_quiescent_run b a w Qb Qa)).
  apply sameGrid_sym.
Qed.

(** X7. On quiescent datasets the full check is transitive. *)
Theorem full_check_transitive (a b c : handle) (w : Store) :
  quiescent (w a) -> quiescent (w b) -> quiescent (w c) ->
  fst (compatibleDatasetProjectionsTransformAndSizes a b w) = true ->
  fst (compatibleDatasetProjectionsTransformAndSizes b c w) = true ->
  fst (compatibleDatasetProjectionsTransformAndSizes a c w) = true.
Proof.
  intros Qa Qb Qc.
  rewrite (proj1 (full_check_quiescent_run a b w Qa Qb)).
  rewrite (proj1 (full_check_quiescent_run b c w Qb Qc)).
  rewrite (proj1 (full_check_quiescent_run a c w Qa Qc)).
  apply sameGrid_trans.
Qed.

(** X8. A dataset with a valid transform is fully compatible with itself
    exactly when none of the six components of the transform is a NaN. *)
Theorem full_check_reflexive_iff_no_nan (a : handle) (w : Store)
    (t : GeoTransform) :
  valid_transform (w a) t ->
  fst (compatibleDatasetProjectionsTransformAndSizes a a w) = true <->
  forall i, (i < 6)%nat -> is_nan (gt_at t i) = false.
Proof.
  intros [Hfirst Hsecond].
  unfold compatibleDatasetProjectionsTransformAndSizes, bind.
  rewrite compatibleDatasetProjections_same. cbn [negb].
  rewrite rasterSizesDiffer_equal by reflexivity.
  rewrite call_eq. rewrite Hfirst.
  rewrite call_eq, upd_same. rewrite Hsecond. cbn [fst snd].
  change (transformsEqual (seq 0 6) t t = true <->
          forall i, (i < 6)%nat -> is_nan (gt_at t i) = false).
  rewrite transformsEqual_spec. split.
  - intros Hall i Hi. apply d_eq_refl_not_nan. apply Hall. apply in_seq.
    split; [apply Nat.le_0_l | exact Hi].
  - intros Hall i Hi. apply d_eq_refl_not_nan. apply Hall.
    apply in_seq in Hi. apply Hi.
Qed.

End QuiescentDatasets.

(** ** The further checker properties on concrete datasets *)

Lemma projections_check_decision_witness :
  let w := two_datasets (tile [wkt_4326; wkt_3857] unreadable)
                        (tile [wkt_4326] unreadable) in
  fst (compatibleDatasetProjections 1 2 w) = true <->
  (wkt_4326 = None /\ wkt_3857 = None) \/
  (exists l r, wkt_4326 = Some l /\ wkt_3857 = Some r /\
               (cs_addr l = cs_addr r \/ cs_bytes l = cs_bytes r)).
Proof.
  intros w.
  assert (Hne : 1 <> 2) by discriminate.
  exact (projections_check_decision 1 2 w Hne).
Defined.

Lemma size_mismatch_rejects_witness :
  let w := two_datasets (tile [wkt_4326] (CE_None, north_up))
                        (small_tile [wkt_4326] (CE_None, north_up)) in
  compatibleDatasetProjectionsTransformAndSizes 1 2 w =
    (false, snd (compatibleDatasetProjections 1 2 w)).
Proof.
  intros w.
  apply (size_mismatch_rejects 1 2 w).
  - reflexivity.
  - left. discriminate.
Defined.

Lemma full_check_frame_witness :
  let w := three_datasets (tile [wkt_4326; wkt_3857] (CE_None, north_up))
                          (tile [wkt_4326] (CE_None, north_up))
                          (tile [wkt_3857] unreadable) in
  snd (compatibleDatasetProjectionsTransformAndSizes 1 2 w) 3 = w 3.
Proof.
  intros w. apply (full_check_frame 1 2 3 w); discriminate.
Defined.

Lemma full_check_on_quiescent_datasets_witness :
  let a := tile [wkt_4326] (CE_None, north_up) in
  let b := tile [wkt_3857] (CE_None, north_up) in
  fst (compatibleDatasetProjectionsTransformAndSizes 1 2 (two_datasets a b)) =
    sameGrid a b /\
  forall k,
    snd (compatibleDatasetProjectionsTransformAndSizes 1 2 (two_datasets a b)) k
    = two_datasets a b k.
Proof.
  intros a b.
  apply (full_check_on_quiescent_datasets 1 2 (two_datasets a b));
    split; reflexivity.
Defined.

Lemma full_check_symmetric_witness :
  let w := two_datasets (tile [wkt_4326] (CE_None, north_up))
                        (tile [wkt_3857] (CE_None, north_up_coarse)) in
  fst (compatibleDatasetProjectionsTransformAndSizes 1 2 w) =
  fst (compatibleDatasetProjectionsTransformAndSizes 2 1 w).
Proof.
  intros w. apply (full_check_symmetric 1 2 w); split; reflexivity.
Defined.

Lemma full_check_transitive_witness :
  let w := three_datasets (tile [wkt_4326] (CE_None, north_up))
                          (tile [wkt_3857] (CE_None, north_up))
                          (tile [None] (CE_None, north_up)) in
  fst (compatibleDatasetProjectionsTransformAndSizes 1 3 w) = true.
Proof.
  intros w.
  apply (full_check_transitive 1 2 3 w);
    try (split; reflexivity); reflexivity.
Defined.

Lemma full_check_reflexive_iff_no_nan_witness :
  let w := two_datasets (tile [wkt_4326] (CE_None, broken_transform))
                        (tile [wkt_4326] unreadable) in
  fst (compatibleDatasetProjectionsTransformAndSizes 1 1 w) = true <->
  forall i, (i < 6)%nat -> is_nan (gt_at broken_transform i) = false.
Proof.
  intros w.
  apply (full_check_reflexive_iff_no_nan 1 w broken_transform).
  split; reflexivity.
Defined.

(** * Further properties of the typed buffer factory *)

(** ** The numeric default policy *)

Lemma default_value_well_typed (T : CType) (scale : double) :
  well_typed T (default_value T scale).
Proof.
  unfold default_value.
  destruct T; cbn [is_integer]; try reflexivity;
    (destruct (d_lt scale d_zero); [| destruct (d_gt scale d_zero)]);
    simpl; unfold representable; simpl; (split; [reflexivity | lia]).
Qed.

(** X10. The default of an integer type always lies in the range of that type,
    whatever the scale (NaN and infinities included); the default of a
    floating type is always a floating-point number. *)
Theorem default_value_in_range (T : CType) (scale : double) :
  if is_integer T
  then exists z, default_value T scale = SInt z /\ representable T z
  else exists f, default_value T scale = SFloat f.
Proof.
  pose proof (default_value_well_typed T scale) as Hwt.
  unfold well_typed in Hwt.
  destruct (default_value T scale) as [z | f].
  - destruct Hwt as [-> Hz]. exists z. split; [reflexivity | exact Hz].
  - rewrite Hwt. exists f. reflexivity.
Qed.

(** X11. Special scales for an integer type: a NaN and the two zeros give 0,
    plus infinity gives the maximum, minus infinity the minimum. *)
Theorem default_value_special_scales (T : CType) :
  is_integer T = true ->
  default_value T S754_nan = SInt 0 /\
  (forall s, default_value T (S754_zero s) = SInt 0) /\
  default_value T (S754_infinity false) = numeric_limits_max T /\
  default_value T (S754_infinity true) = numeric_limits_min T.
Proof.
  intros HT. unfold default_value, static_cast_int. rewrite HT.
  split; [reflexivity |]. split; [intros s; reflexivity |].
  split; reflexivity.
Qed.

Lemma default_value_special_scales_witness :
  default_value int16_t S754_nan = SInt 0 /\
  (forall s, default_value int16_t (S754_zero s) = SInt 0) /\
  default_value int16_t (S754_infinity false) = SInt 32767 /\
  default_value int16_t (S754_infinity true) = SInt (-32768).
Proof. apply (default_value_special_scales int16_t). reflexivity. Defined.

(** X12. The default of an integer type is monotone in the scale: a scale that
    is less than or equal to another never gives a greater default. *)
Theorem default_value_monotone (T : CType) (x y : double) :
  is_integer T = true ->
  SFleb x y = true ->
  scalar_Z (default_value T x) <= scalar_Z (default_value T y).
Proof.
  intros HT Hle. unfold default_value. rewrite HT.
  unfold d_lt, d_gt, d_zero, SFltb, SFleb in *.
  destruct x as [sx | sx | | sx mx ex], y as [sy | sy | | sy my ey];
    try discriminate Hle;
    try destruct sx; try destruct sy; try discriminate Hle;
    destruct T; try discriminate HT; simpl; lia.
Qed.

Lemma default_value_monotone_witness :
  scalar_Z (default_value int32_t d_minus_one) <=
  scalar_Z (default_value int32_t d_2_5).
Proof.
  apply (default_value_monotone int32_t d_minus_one d_2_5); reflexivity.
Defined.

(** ** The map of the dispatch table *)

Lemma GDALDataType_code_inj (a b : GDALDataType) :
  GDALDataType_code a = GDALDataType_code b -> a = b.
Proof. destruct a, b; intros E; try reflexivity; discriminate E. Qed.

Lemma key_eqb_eq (a b : TypeCompontents) : key_eqb a b = true <-> a = b.
Proof.
  unfold key_eqb. destruct a as [ta na], b as [tb nb]. cbn [fst snd].
  rewrite andb_true_iff, !Z.eqb_eq. split.
  - intros [Et En]. apply GDALDataType_code_inj in Et. congruence.
  - intros E. injection E as -> ->. split; reflexivity.
Qed.

Lemma key_eqb_neq (a b : TypeCompontents) : key_eqb a b = false <-> a <> b.
Proof.
  rewrite <- key_eqb_eq. destruct (key_eqb a b); split; congruence.
Qed.

Lemma map_assign_keys_In (m : std_map) (k k' : TypeCompontents)
    (f : CreateFunction) :
  In k' (keys (map_assign m k f)) -> k' = k \/ In k' (keys m).
Proof.
  induction m as [| [k0 f0] rest IH]; simpl.
  - intros [<- | []]. left. reflexivity.
  - destruct (key_eqb k0 k) eqn:E; simpl.
    + apply key_eqb_eq in E. subst k0. intros [<- | Hin]; auto.
    + intros [<- | Hin]; [auto |]. destruct (IH Hin); auto.
Qed.

(** X19. Assignment and lookup: after [m[k] = f], looking [k] up finds [f],
    and looking any other key up finds what it found before. *)
Theorem map_assign_find (m : std_map) (k k' : TypeCompontents)
    (f : CreateFunction) :
  map_find (map_assign m k f) k = Some f /\
  (k' <> k -> map_find (map_assign m k f) k' = map_find m k').
Proof.
  split.
  - induction m as [| [k0 f0] rest IH]; simpl.
    + rewrite (proj2 (key_eqb_eq k k) eq_refl). reflexivity.
    + destruct (key_eqb k0 k) eqn:E; simpl.
      * rewrite (proj2 (key_eqb_eq k k) eq_refl). reflexivity.
      * rewrite E. exact IH.
  - intros Hne. induction m as [| [k0 f0] rest IH]; simpl.
    + rewrite (proj2 (key_eqb_neq k k')); [reflexivity | congruence].
    + destruct (key_eqb k0 k) eqn:E; simpl.
      * apply key_eqb_eq in E. subst k0.
        rewrite (proj2 (key_eqb_neq k k')); [reflexivity | congruence].
      * destruct (key_eqb k0 k'); [reflexivity | exact IH].
Qed.

(** X20. Assignment keeps the keys of a map pairwise distinct. *)
Theorem map_assign_distinct_keys (m : std_map) (k : TypeCompontents)
    (f : CreateFunction) :
  NoDup (keys m) -> NoDup (keys (map_assign m k f)).
Proof.
  induction m as [| [k0 f0] rest IH]; simpl; intros Hnd.
  - constructor; [intros [] | constructor].
  - inversion Hnd as [| x xs Hnotin Hrest]; subst.
    destruct (key_eqb k0 k) eqn:E; simpl.
    + apply key_eqb_eq in E. subst k0. constructor; assumption.
    + apply key_eqb_neq in E. constructor; [| apply IH; exact Hrest].
      intros Hin. destruct (map_assign_keys_In rest k k0 f Hin) as [-> | Hold];
        [apply E; reflexivity | exact (Hnotin Hold)].
Qed.

Lemma map_assign_distinct_keys_witness :
  NoDup (keys (map_assign
                 (map_assign [] (GDT_Byte, 1)
                    (fun w h d => Array2D_create ubyteArray2D w h
                                    (scalar_fill uint8_t d) VK_FORMAT_R8_UNORM))
                 (GDT_Byte, 1)
                 (fun w h d => Array2D_create ubyteArray2D w h
                                 (scalar_fill uint8_t d) VK_FORMAT_R8_UNORM))).
Proof.
  apply map_assign_distinct_keys. simpl.
  constructor; [intros [] | constructor].
Defined.

(** X21. The 28 assignments of lines 122-152 write 28 different keys: none
    overwrites an earlier entry, and the keys are exactly the pairs of a
    supported encoding with a channel count from 1 to 4. *)
Theorem createMap_has_28_distinct_keys :
  List.length createMap = 28%nat /\
  NoDup (keys createMap) /\
  forall dt n,
    In (dt, n) (keys createMap) <->
    encoding_type dt <> None /\ 1 <= n <= 4.
Proof.
  split; [reflexivity |]. split.
  - rewrite createMap_keys.
    repeat (constructor;
            [simpl; intros Hin;
             repeat (destruct Hin as [Hin | Hin]; [discriminate Hin |]);
             exact Hin |]).
    constructor.
  - intros dt n. rewrite createMap_keys. split.
    + simpl. intros Hin.
      repeat (destruct Hin as [Hin | Hin];
              [injection Hin as <- <-; split; [discriminate | lia] |]).
      destruct Hin.
    + intros [Hdt Hn].
      assert (n = 1 \/ n = 2 \/ n = 3 \/ n = 4) as [-> | [-> | [-> | ->]]] by lia;
        destruct dt; try (exfalso; apply Hdt; reflexivity); simpl; tauto.
Qed.

(** ** The factory *)

(** Every buffer the factory returns comes from a table entry. *)
Lemma createImage2D_Some_inv (width height n : Z) (dt : GDALDataType)
    (def : dvec4) (buffer : Data) :
  createImage2D width height n dt def = Some buffer ->
  exists T format,
    encoding_type dt = Some T /\ 1 <= n <= 4 /\
    format_info format = mk_fi n (bit_width T) (documented_kind T) /\
    buffer = Array2D_create (mk_vt T n) (to_uint32 width) (to_uint32 height)
               (table_fill T n def) format.
Proof.
  intros Hsome.
  destruct (encoding_type dt) as [T |] eqn:E.
  - destruct (Z_lt_dec n 1) as [Hlo | Hlo].
    { rewrite createImage2D_unsupported in Hsome by (right; left; exact Hlo).
      discriminate. }
    destruct (Z_lt_dec 4 n) as [Hhi | Hhi].
    { rewrite createImage2D_unsupported in Hsome by (right; right; exact Hhi).
      discriminate. }
    assert (Hn : 1 <= n <= 4) by lia.
    destruct (createImage2D_supported width height n dt def T E Hn)
      as (format & Hfmt & Hcreate).
    exists T, format. rewrite Hcreate in Hsome. injection Hsome as <-.
    repeat split; try assumption; lia.
  - rewrite createImage2D_unsupported in Hsome by (left; exact E).
    discriminate.
Qed.

Lemma encoding_type_inj (a b : GDALDataType) (T : CType) :
  encoding_type a = Some T -> encoding_type b = Some T -> a = b.
Proof.
  destruct a; try discriminate; intros Ea; injection Ea as <-;
    destruct b; try discriminate; reflexivity.
Qed.

(** X13. Fill values of 1, 2 and 3 channels: in every element of the returned
    buffer, channel [i] is the default policy applied to component [i] of
    the default vector. *)
Theorem fill_follows_default_vector (width height n : Z) (dt : GDALDataType)
    (T : CType) (def : dvec4) :
  encoding_type dt = Some T -> 1 <= n <= 3 ->
  exists buffer,
    createImage2D width height n dt def = Some buffer /\
    forall e, In e (elements buffer) ->
      forall i, 0 <= i < n ->
        exists c, vec4_at def i = Some c /\
                  nth_error e (Z.to_nat i) = Some (Some (default_value T c)).
Proof.
  intros HT Hn.
  destruct (createImage2D_supported width height n dt def T HT)
    as (format & _ & Hcreate); [lia |].
  eexists. split; [exact Hcreate |].
  intros e He i Hi. simpl in He. apply repeat_spec in He. subst e.
  assert (n = 1 \/ n = 2 \/ n = 3) as [-> | [-> | ->]] by lia;
    [assert (i = 0) as -> by lia
    | assert (i = 0 \/ i = 1) as [-> | ->] by lia
    | assert (i = 0 \/ i = 1 \/ i = 2) as [-> | [-> | ->]] by lia];
    eexists; split; reflexivity.
Qed.

Lemma fill_follows_default_vector_witness :
  exists buffer,
    createImage2D 2 2 3 GDT_Int16 (mk_dvec4 d_minus_one d_zero d_2_5 d_one)
      = Some buffer /\
    forall e, In e (elements buffer) ->
      forall i, 0 <= i < 3 ->
        exists c, vec4_at (mk_dvec4 d_minus_one d_zero d_2_5 d_one) i = Some c /\
                  nth_error e (Z.to_nat i) = Some (Some (default_value int16_t c)).
Proof.
  apply (fill_follows_default_vector 2 2 3 GDT_Int16 int16_t).
  - reflexivity.
  - lia.
Defined.

(** X14. Zero-size allocation: with a width or a height of 0 and a supported
    pair, the factory still returns a buffer, and that buffer has no
    elements. *)
Theorem zero_size_gives_empty_buffer (width height n : Z) (dt : GDALDataType)
    (T : CType) (def : dvec4) :
  encoding_type dt = Some T -> 1 <= n <= 4 ->
  width = 0 \/ height = 0 ->
  exists buffer,
    createImage2D width height n dt def = Some buffer /\
    elements buffer = [] /\ valueCount buffer = 0 /\ scalarCount buffer = 0.
Proof.
  intros HT Hn Hzero.
  destruct (createImage2D_supported width height n dt def T HT Hn)
    as (format & _ & Hcreate).
  eexists. split; [exact Hcreate |].
  assert (Hprod : to_uint32 width * to_uint32 height = 0).
  { destruct Hzero as [-> | ->]; unfold to_uint32;
      rewrite Z.mod_0_l by lia; lia. }
  unfold valueCount, scalarCount. simpl. rewrite Hprod. simpl.
  repeat split; reflexivity.
Qed.

Lemma zero_size_gives_empty_buffer_witness :
  exists buffer,
    createImage2D 0 512 4 GDT_Float32 (mk_dvec4 d_one d_one d_one d_one)
      = Some buffer /\
    elements buffer = [] /\ valueCount buffer = 0 /\ scalarCount buffer = 0.
Proof.
  apply (zero_size_gives_empty_buffer 0 512 4 GDT_Float32 float_t).
  - reflexivity.
  - lia.
  - left. reflexivity.
Defined.

(** X15. The conversion of the sizes: the stored function takes
    [uint32_t] sizes, so a negative [int] width reaches the container as
    the width plus 2^32 (and likewise the height): whenever the factory
    returns a buffer for a negative width, that buffer's width is the
    width plus 2^32, which is at least 2^31. *)
Theorem negative_size_is_converted (width height n : Z) (dt : GDALDataType)
    (def : dvec4) (buffer : Data) :
  createImage2D width height n dt def = Some buffer ->
  (- 2 ^ 31 <= width < 0 ->
   a_width buffer = width + 2 ^ 32 /\ 2 ^ 31 <= a_width buffer) /\
  (- 2 ^ 31 <= height < 0 ->
   a_height buffer = height + 2 ^ 32 /\ 2 ^ 31 <= a_height buffer).
Proof.
  intros Hsome.
  destruct (createImage2D_Some_inv _ _ _ _ _ _ Hsome)
    as (T & format & _ & _ & _ & ->).
  assert (Hwrap : forall z, - 2 ^ 31 <= z < 0 -> to_uint32 z = z + 2 ^ 32).
  { intros z Hz. unfold to_uint32.
    rewrite <- (Z_mod_plus_full z 1 (2 ^ 32)). apply Z.mod_small. lia. }
  simpl. split; intros Hneg; rewrite (Hwrap _ Hneg); lia.
Qed.

Lemma negative_size_is_converted_witness :
  let buffer :=
    Array2D_create ubyteArray2D (to_uint32 (-1)) (to_uint32 0)
      (scalar_fill uint8_t (mk_dvec4 d_zero d_zero d_zero d_zero))
      VK_FORMAT_R8_UNORM in
  a_width buffer = -1 + 2 ^ 32 /\ 2 ^ 31 <= a_width buffer.
Proof.
  intros buffer.
  apply (proj1 (negative_size_is_converted (-1) 0 1 GDT_Byte
                  (mk_dvec4 d_zero d_zero d_zero d_zero) buffer eq_refl)).
  lia.
Defined.

(** X16. Component 3 of the default vector is never used: for every encoding
    and every channel count, changing it does not change the result. *)
Theorem default_component_3_unused (width height n : Z) (dt : GDALDataType)
    (x y z c3 c3' : double) :
  createImage2D width height n dt (mk_dvec4 x y z c3) =
  createImage2D width height n dt (mk_dvec4 x y z c3').
Proof.
  destruct (encoding_type dt) as [T |] eqn:HT.
  - destruct (Z_lt_dec n 1) as [Hlo | Hlo].
    { rewrite !createImage2D_unsupported by (right; left; exact Hlo).
      reflexivity. }
    destruct (Z_lt_dec 4 n) as [Hhi | Hhi].
    { rewrite !createImage2D_unsupported by (right; right; exact Hhi).
      reflexivity. }
    assert (Hn : 1 <= n <= 4) by lia.
    destruct (createMap_entry dt n T HT Hn)
      as (create & format & Hfind & _ & Hcreate).
    unfold createImage2D. rewrite Hfind, !Hcreate.
    assert (Hfill : table_fill T n (mk_dvec4 x y z c3) =
                    table_fill T n (mk_dvec4 x y z c3')).
    { assert (n = 1 \/ n = 2 \/ n = 3 \/ n = 4)
        as [-> | [-> | [-> | ->]]] by lia; reflexivity. }
    rewrite Hfill. reflexivity.
  - rewrite !createImage2D_unsupported by (left; exact HT). reflexivity.
Qed.

(** X17. The tag identifies the request: two buffers of the factory with the
    same format tag were requested with the same encoding and the same
    channel count. *)
Theorem format_tag_identifies_request
    (w1 h1 n1 w2 h2 n2 : Z) (dt1 dt2 : GDALDataType) (def1 def2 : dvec4)
    (b1 b2 : Data) :
  createImage2D w1 h1 n1 dt1 def1 = Some b1 ->
  createImage2D w2 h2 n2 dt2 def2 = Some b2 ->
  layout b1 = layout b2 ->
  dt1 = dt2 /\ n1 = n2 /\ value_type b1 = value_type b2.
Proof.
  intros H1 H2 Hlayout.
  destruct (createImage2D_Some_inv _ _ _ _ _ _ H1)
    as (T1 & f1 & HT1 & Hn1 & Hf1 & ->).
  destruct (createImage2D_Some_inv _ _ _ _ _ _ H2)
    as (T2 & f2 & HT2 & Hn2 & Hf2 & ->).
  simpl in Hlayout. subst f2. rewrite Hf1 in Hf2.
  injection Hf2 as En Eb Ek.
  assert (ET : T1 = T2).
  { destruct T1, T2; try reflexivity; discriminate. }
  subst T2 n2. split; [exact (encoding_type_inj dt1 dt2 T1 HT1 HT2) |].
  split; reflexivity.
Qed.

Lemma format_tag_identifies_request_witness :
  GDT_Int16 = GDT_Int16 /\ 2 = 2 /\
  value_type (Array2D_create svec2Array2D 4 4
                (default_vec2 int16_t (mk_dvec4 d_one d_one d_one d_one))
                VK_FORMAT_R16G16_SNORM) =
  value_type (Array2D_create svec2Array2D 8 2
                (default_vec2 int16_t (mk_dvec4 d_zero d_zero d_zero d_zero))
                VK_FORMAT_R16G16_SNORM).
Proof.
  apply (format_tag_identifies_request 4 4 2 8 2 2 GDT_Int16 GDT_Int16
           (mk_dvec4 d_one d_one d_one d_one)
           (mk_dvec4 d_zero d_zero d_zero d_zero)); reflexivity.
Defined.

(** X18. Typed contents: every channel with a value, in every element of a
    returned buffer, holds a value of the scalar type the encoding names:
    an integer within the range of an integer type, a floating-point
    number for a floating type. *)
Theorem buffer_contents_well_typed (width height n : Z) (dt : GDALDataType)
    (T : CType) (def : dvec4) (buffer : Data) :
  encoding_type dt = Some T ->
  createImage2D width height n dt def = Some buffer ->
  forall e, In e (elements buffer) ->
    forall s, In (Some s) e -> well_typed T s.
Proof.
  intros HT Hsome e He s Hs.
  destruct (createImage2D_Some_inv _ _ _ _ _ _ Hsome)
    as (T' & format & HT' & Hn & _ & ->).
  assert (T' = T) as -> by congruence.
  simpl in He. apply repeat_spec in He. subst e.
  assert (Hchan : forall i, default_channel T def i = Some s -> well_typed T s).
  { intros i. unfold default_channel.
    destruct (vec4_at def i) as [c |]; simpl; [| discriminate].
    intros E. injection E as <-. apply default_value_well_typed. }
  assert (n = 1 \/ n = 2 \/ n = 3 \/ n = 4) as [-> | [-> | [-> | ->]]] by lia;
    simpl in Hs;
    repeat (destruct Hs as [Hs | Hs]; [exact (Hchan _ Hs) |]);
    destruct Hs.
Qed.

Lemma buffer_contents_well_typed_witness :
  well_typed uint8_t (default_value uint8_t d_2_5).
Proof.
  apply (buffer_contents_well_typed 2 1 3 GDT_Byte uint8_t
           (mk_dvec4 d_minus_one d_2_5 d_zero d_one)
           (Array2D_create ubvec3Array2D 2 1
              (default_vec3 uint8_t (mk_dvec4 d_minus_one d_2_5 d_zero d_one))
              VK_FORMAT_R8G8B8_UNORM)
           eq_refl eq_refl
           (default_vec3 uint8_t (mk_dvec4 d_minus_one d_2_5 d_zero d_one))).
  - simpl. left. reflexivity.
  - simpl. right. left. reflexivity.
Defined.

(** * Symmetry of the projection check *)

Section ProjectionSymmetry.

Context {D : Type} `{GDALDataset D}.

(** A dataset with one projection string is accepted against every
    dataset. *)
Lemma compatibleDatasetProjections_consistent (lhs rhs : handle) (w : Store) :
  projectionRef_consistent (w lhs) = true ->
  fst (compatibleDatasetProjections lhs rhs w) = true.
Proof.
  intros Hc. destruct (Z.eq_dec lhs rhs) as [-> | Hne].
  - rewrite compatibleDatasetProjections_same. reflexivity.
  - rewrite compatibleDatasetProjections_distinct by exact Hne. cbn zeta.
    unfold projectionRef_consistent in Hc.
    destruct (fst (GetProjectionRef (w lhs))) as [l |],
      (fst (GetProjectionRef (snd (GetProjectionRef (w lhs))))) as [r |];
      try discriminate Hc.
    + apply String.eqb_eq in Hc.
      rewrite (proj2 (strcmp_zero_iff l r) Hc).
      destruct (ptr_eq (Some l) (Some r)); reflexivity.
    + reflexivity.
Qed.

(** C1. Symmetry.  For every pair of dataset handles whose datasets each
    have one projection string (two consecutive calls of
    [GetProjectionRef] on a dataset both return null, or both return
    strings with the same bytes), [compatibleDatasetProjections] returns
    the same boolean for (a, b) and for (b, a).  Both answers are true:
    line 35 reads the second reference from [lhs] again, so each call
    compares a dataset's reference with itself. *)
Theorem projections_check_symmetric (a b : handle) (w : Store) :
  projectionRef_consistent (w a) = true ->
  projectionRef_consistent (w b) = true ->
  fst (compatibleDatasetProjections a b w) =
  fst (compatibleDatasetProjections b a w) /\
  fst (compatibleDatasetProjections a b w) = true.
Proof.
  intros Ha Hb.
  rewrite (compatibleDatasetProjections_consistent a b w Ha).
  rewrite (compatibleDatasetProjections_consistent b a w Hb).
  split; reflexivity.
Qed.

End ProjectionSymmetry.

Lemma projections_check_symmetric_witness :
  let w := two_datasets (tile [wkt_4326; wkt_4326_copy] unreadable)
                        (tile [None] unreadable) in
  fst (compatibleDatasetProjections 1 2 w) =
  fst (compatibleDatasetProjections 2 1 w) /\
  fst (compatibleDatasetProjections 1 2 w) = true.
Proof.
  intros w. apply (projections_check_symmetric 1 2 w); reflexivity.
Defined.

(** The condition on the projection strings is needed in this model: a
    scripted dataset whose second answer is another string is rejected
    against a dataset that is accepted against it. *)
Remark projections_check_needs_one_string :
  let a := tile [wkt_4326; wkt_3857] unreadable in
  let b := tile [wkt_4326] unreadable in
  projectionRef_consistent a = false /\
  fst (compatibleDatasetProjections 1 2 (two_datasets a b)) = false /\
  fst (compatibleDatasetProjections 2 1 (two_datasets a b)) = true.
Proof. repeat split; reflexivity. Qed.
